(** * GeoServer catalogue client: name resolution and response cache

    A shallow embedding of [opengeo/geoserver/catalog.py] (class [Catalog])
    and the properties of its lookups, its five-second GET cache and its
    mutating requests.

    The catalogue object is a service URL plus a dictionary used as a cache.
    Everything beyond the process (the HTTP server behind the transport and
    the wall clock) is one abstract state, threaded through every call
    together with a ghost log of the requests handed to the transport. *)

From Stdlib Require Import ZArith List Bool.
From stdpp Require Import base option list strings pretty gmap.

Set Warnings "-register-all".

Open Scope Z_scope.

(** ** Exceptions *)

(** The four exception classes of the module, plus the built-in ones the
    modelled paths can raise. [PyException msg inner] is the plain
    [Exception(msg, e)] of [parse_or_raise] and the [Exception(msg)] of the
    argument checks. *)
Inductive ParserError : Type := ExpatError.

Inductive Exn : Type :=
| UploadError (detail : string)
| ConflictingDataError (msg : string)
| AmbiguousRequestError (msg : option string)
| FailedRequestError (detail : string)
| PyException (msg : string) (inner : option ParserError)
| AttributeError
| TypeError
| KeyError (key : string)
| AssertionError (msg : string).

Inductive Outcome (A : Type) : Type :=
| Raise (e : Exn)
| Return (a : A).
Arguments Raise {A} e.
Arguments Return {A} a.

(** ** HTTP transport *)

Inductive Method : Type := GET | PUT | POST | DELETE.

Record Request : Type := mkRequest {
  req_url : string;
  req_method : Method;
  req_body : option string;
  req_headers : list (string * string)
}.

Record Response : Type := mkResponse {
  status : Z;
  content : string
}.

(** ** Parsed XML

    What [xml.etree.ElementTree] gives the module: a tag, an optional text
    and the child elements. *)
Inductive Element : Type :=
| Elem (tag : string) (text : option string) (children : list Element).

Definition tag_of (e : Element) : string := let 'Elem t _ _ := e in t.
Definition text_of (e : Element) : option string := let 'Elem _ x _ := e in x.
Definition children_of (e : Element) : list Element := let 'Elem _ _ c := e in c.

(** [e.findall(tag)]: the direct children with that tag, in document order. *)
Definition findall (tag : string) (e : Element) : list Element :=
  filter (fun c => tag_of c = tag) (children_of e).

(** [e.find(tag)]: the first such child, or [None]. *)
Definition find (tag : string) (e : Element) : option Element :=
  head (findall tag e).

(** ** Catalogue state and the world around it *)

(** A cache entry is the pair [(datetime.now(), content)]; time is counted in
    microseconds, the resolution of [datetime] and [timedelta]. *)
Record Catalog : Type := mkCatalog {
  service_url : string;
  _cache : gmap string (Z * string)
}.

Record World (Net : Type) : Type := mkWorld {
  catalog : Catalog;
  net : Net;
  sent : list Request
}.
Arguments mkWorld {Net} _ _ _.
Arguments catalog {Net} _.
Arguments net {Net} _.
Arguments sent {Net} _.

(** State and exceptions: a raised exception keeps the state reached so far,
    as in Python. *)
Definition M (Net A : Type) : Type := World Net -> Outcome A * World Net.

Definition ret {Net A} (a : A) : M Net A := fun w => (Return a, w).
Definition raise {Net A} (e : Exn) : M Net A := fun w => (Raise e, w).
Definition bind {Net A B} (m : M Net A) (k : A -> M Net B) : M Net B :=
  fun w => match m w with
           | (Return a, w') => k a w'
           | (Raise e, w') => (Raise e, w')
           end.

Declare Scope py_scope.
Delimit Scope py_scope with py.
Notation "x <- c ;; k" := (bind c (fun x => k))
  (at level 100, c at next level, right associativity) : py_scope.
Notation "c ;;; k" := (bind c (fun _ => k))
  (at level 100, right associativity) : py_scope.
Open Scope py_scope.

(** [try: m except: handler] with a bare [except], which catches everything. *)
Definition try_except {Net A} (m : M Net A) (handler : M Net A) : M Net A :=
  fun w => match m w with
           | (Return a, w') => (Return a, w')
           | (Raise _, w') => handler w'
           end.

(** [try: m except FailedRequestError: handler]. *)
Definition try_except_FailedRequestError {Net A}
    (m : M Net A) (handler : M Net A) : M Net A :=
  fun w => match m w with
           | (Raise (FailedRequestError _), w') => handler w'
           | r => r
           end.

(** A list comprehension whose element expression can raise. *)
Fixpoint mapM {Net A B} (f : A -> M Net B) (l : list A) : M Net (list B) :=
  match l with
  | [] => ret []
  | x :: xs => y <- f x ;; ys <- mapM f xs ;; ret (y :: ys)
  end.

(** A list comprehension [[x for x in l if p(x)]] whose condition can raise
    (and touches nothing else). *)
Fixpoint comprehension_if {A} (p : A -> Outcome bool) (l : list A)
    : Outcome (list A) :=
  match l with
  | [] => Return []
  | x :: xs =>
    match p x with
    | Raise e => Raise e
    | Return b =>
      match comprehension_if p xs with
      | Raise e => Raise e
      | Return ys => Return (if b then x :: ys else ys)
      end
    end
  end.

(** A [for] loop over a list, threading the loop's local variables. *)
Fixpoint for_each {Net A S} (body : A -> S -> M Net S) (l : list A) (s : S)
    : M Net S :=
  match l with
  | [] => ret s
  | x :: xs => s' <- body x s ;; for_each body xs s'
  end.

(** A [for] loop that returns from the function at the first [Some]. *)
Fixpoint first_some {Net A B} (f : A -> M Net (option B)) (l : list A)
    : M Net (option B) :=
  match l with
  | [] => ret None
  | x :: xs => r <- f x ;;
               match r with
               | Some b => ret (Some b)
               | None => first_some f xs
               end
  end.

(** ** Typed handles *)

Record Workspace : Type := mkWorkspace { workspace_name : string }.

Inductive StoreKind : Type := DataStoreKind | CoverageStoreKind.

Record Store : Type := mkStore {
  store_kind : StoreKind;
  store_workspace : Workspace;
  store_name : string
}.

Record Resource : Type := mkResource {
  resource_store : Store;
  resource_name : string
}.

Record Layer : Type := mkLayer { layer_name : string; layer_dom : Element }.

Record Style : Type := mkStyle {
  style_name : string;
  style_workspace : option Workspace
}.

(** What [save] and [delete] read from the object they are given. *)
Record ConfigObject : Type := mkConfigObject {
  href : string;
  message : string;
  save_method : Method
}.

#[global] Instance Workspace_eq_dec : EqDecision Workspace.
Proof. solve_decision. Defined.
#[global] Instance StoreKind_eq_dec : EqDecision StoreKind.
Proof. solve_decision. Defined.
#[global] Instance Store_eq_dec : EqDecision Store.
Proof. solve_decision. Defined.
#[global] Instance Method_eq_dec : EqDecision Method.
Proof. solve_decision. Defined.

(** How a caller names a workspace or a store: by a string
    ([isinstance(x, basestring)]) or by a handle. *)
Inductive WorkspaceArg : Type :=
| WorkspaceByName (name : string)
| WorkspaceByHandle (workspace : Workspace).

Inductive StoreArg : Type :=
| StoreByName (name : string)
| StoreByHandle (store : Store).

(** ** Collaborators outside [catalog.py]

    The transport ([httplib2]), the clock, the XML parser, and the helpers of
    the sibling modules ([support.url], [util.name], the handle classes).
    [Net] is the state of everything beyond the process. *)
Class Collaborators : Type := {
  Net : Type;
  (** [self.http.request(...)]: the answer and the world after it. *)
  http_request : Request -> Net -> Response * Net;
  (** [datetime.now()], in microseconds. *)
  datetime_now : Net -> Z;
  (** [xml.etree.ElementTree.XML]; [None] stands for [ExpatError]. *)
  XML : string -> option Element;
  (** [support.url(base, segments, query)]. *)
  url : string -> list string -> list (string * string) -> string;
  (** [workspace.datastore_url] and [workspace.coveragestore_url]. *)
  datastore_url : Workspace -> string;
  coveragestore_url : Workspace -> string;
  (** [str(workspace)]. *)
  str_workspace : Workspace -> string;
  (** [store.get_resources()]. *)
  store_get_resources : Store -> M Net (list Resource);
  (** [store.connection_parameters]: a dictionary, read from the server. *)
  connection_parameters : Store -> M Net (gmap string string);
  (** The REST location of a layer, [Layer(catalog, name).href]. *)
  layer_href : string -> string;
  (** [workspace.message()], the XML a workspace is saved as. *)
  workspace_message : Workspace -> string;
  (** [support.prepare_upload_bundle(name, data)]: the path of the archive. *)
  prepare_upload_bundle : string -> gmap string string -> string;
  (** [open(path)], as a request body. *)
  open_file : string -> string;
  (** [util.name(x)], of a workspace and of a store. *)
  util_name_workspace : WorkspaceArg -> string;
  util_name_store : StoreArg -> string
}.

Definition lift {Net A} (o : Outcome A) : M Net A := fun w => (o, w).

(** [node.find("name").text] of an index entry. *)
Definition index_name (node : Element) : Outcome string :=
  match find "name" node with
  | None => Raise AttributeError
  | Some n => match text_of n with
              | None => Raise AttributeError
              | Some s => Return s
              end
  end.

(** Modelled from the spec: [workspace.py] is not among the sources. A
    workspace handle is "constructed from a parsed index entry" and carries
    its name; an entry without a name is rejected. *)
Definition workspace_from_index (node : Element) : Outcome Workspace :=
  match index_name node with
  | Raise e => Raise e
  | Return s => Return (mkWorkspace s)
  end.

(** Modelled from the spec: [store.py] is not among the sources. A store
    handle carries its name, its owning workspace and the kind tag of the
    listing that produced the entry. *)
Definition datastore_from_index (workspace : Workspace) (node : Element)
    : Outcome Store :=
  match index_name node with
  | Raise e => Raise e
  | Return s => Return (mkStore DataStoreKind workspace s)
  end.

Definition coveragestore_from_index (workspace : Workspace) (node : Element)
    : Outcome Store :=
  match index_name node with
  | Raise e => Raise e
  | Return s => Return (mkStore CoverageStoreKind workspace s)
  end.

Definition str_workspace_arg `{Collaborators} (workspace : WorkspaceArg) : string :=
  match workspace with
  | WorkspaceByName s => s
  | WorkspaceByHandle w => str_workspace w
  end.

(** Truth value of [if workspace:]: a handle is true, a string is true unless
    empty. *)
Definition truthy_workspace (workspace : WorkspaceArg) : bool :=
  match workspace with
  | WorkspaceByName s => negb (bool_decide (s = ""))
  | WorkspaceByHandle _ => true
  end.

(** A port is given as an integer (the default, 5432) or as a string. *)
Inductive Port : Type := PortInt (n : Z) | PortStr (s : string).

Definition str_port (port : Port) : string :=
  match port with
  | PortInt n => pretty n
  | PortStr s => s
  end.

(** What the upload calls are given as [data]: a dictionary of files to
    bundle, the path of an archive, or an open stream (which only
    [create_coveragestore] can send; [open] refuses it elsewhere). *)
Inductive UploadData : Type :=
| DataDict (files : gmap string string)
| DataPath (path : string)
| DataStream (body : string).

(** [d[key]] on a dictionary. *)
Definition getitem (d : gmap string string) (key : string) : Outcome string :=
  match d !! key with
  | Some v => Return v
  | None => Raise (KeyError key)
  end.

(** The line feed of the request bodies. *)
Definition LF : string := String (Ascii.ascii_of_nat 10) EmptyString.

Definition xml_headers : list (string * string) :=
  [("Content-type", "application/xml"); ("Accept", "application/xml")].

(** [timedelta(seconds=5)]. *)
Definition five_seconds : Z := 5000000.

(** A layer group handle carries the text of the entry's name element,
    which can be missing. *)
Record LayerGroup : Type := mkLayerGroup { layergroup_name : option string }.

(** What [create_layergroup] hands back: a group that exists only locally. *)
Record UnsavedLayerGroup (L S B : Type) : Type := mkUnsavedLayerGroup {
  unsaved_name : string;
  unsaved_layers : L;
  unsaved_styles : S;
  unsaved_bounds : B
}.
Arguments mkUnsavedLayerGroup {L S B} _ _ _ _.
Arguments unsaved_name {L S B} _.

(** ** Python string methods *)

(** [s.endswith(suffix)]: some tail of [s] is [suffix]. *)
Fixpoint endswith (s suffix : string) : bool :=
  if String.eqb s suffix then true
  else match s with
       | EmptyString => false
       | String _ s' => endswith s' suffix
       end.

(** [s.startswith(prefix)]. *)
Fixpoint startswith (s prefix : string) {struct prefix} : bool :=
  match prefix, s with
  | EmptyString, _ => true
  | String _ _, EmptyString => false
  | String c prefix', String d s' => Ascii.eqb d c && startswith s' prefix'
  end.

(** [s.lstrip(chars)], [s.rstrip(chars)] and [s.strip(chars)]: the argument
    is a set of characters, all of which are removed from the end(s). *)
Fixpoint lstrip (chars : list Ascii.ascii) (s : string) : string :=
  match s with
  | EmptyString => EmptyString
  | String c s' => if bool_decide (c ∈ chars) then lstrip chars s' else s
  end.

Fixpoint rstrip (chars : list Ascii.ascii) (s : string) : string :=
  match s with
  | EmptyString => EmptyString
  | String c s' =>
    match rstrip chars s' with
    | EmptyString => if bool_decide (c ∈ chars) then EmptyString
                     else String c EmptyString
    | r => String c r
    end
  end.

Definition strip (chars : list Ascii.ascii) (s : string) : string :=
  rstrip chars (lstrip chars s).

Section CatalogOperations.
Context `{C : Collaborators}.

Local Abbreviation Py := (M Net).

(** *** Primitive effects *)

(** One call of the transport: the request is logged, the world moves on. *)
Definition request (r : Request) : Py Response := fun w =>
  let '(response, n') := http_request r (net w) in
  (Return response, mkWorld (catalog w) n' (sent w ++ [r])).

(** The world after the transport has answered [r]. *)
Definition after_request (r : Request) (w : World Net) : World Net :=
  mkWorld (catalog w) (snd (http_request r (net w))) (sent w ++ [r]).

(** The GET request of [get_xml], and the world after its answer. *)
Definition get_request (rest_url : string) : Request :=
  mkRequest rest_url GET None [].

Definition after_get (rest_url : string) (w : World Net) : World Net :=
  after_request (get_request rest_url) w.

Definition now : Py Z := fun w => (Return (datetime_now (net w)), w).

Definition self_service_url : Py string :=
  fun w => (Return (service_url (catalog w)), w).

Definition cache_get (key : string) : Py (option (Z * string)) :=
  fun w => (Return (_cache (catalog w) !! key), w).

Definition cache_set (key : string) (entry : Z * string) : Py unit := fun w =>
  (Return tt,
   mkWorld (mkCatalog (service_url (catalog w)) (<[key := entry]> (_cache (catalog w))))
           (net w) (sent w)).

Definition cache_clear : Py unit := fun w =>
  (Return tt, mkWorld (mkCatalog (service_url (catalog w)) ∅) (net w) (sent w)).

(** *** [get_xml] *)

Definition is_valid (cached_response : option (Z * string)) : Py bool :=
  match cached_response with
  | None => ret false
  | Some (stamp, _) => t <- now ;; ret (t - stamp <? five_seconds)
  end.

Definition non_xml_message (rest_url xml : string) : string :=
  "GeoServer gave non-XML response for [GET " +:+ rest_url +:+ "]: " +:+ xml.

Definition parse_or_raise (rest_url xml : string) : Py Element :=
  match XML xml with
  | Some dom => ret dom
  | None => raise (PyException (non_xml_message rest_url xml) (Some ExpatError))
  end.

Definition get_xml (rest_url : string) : Py Element :=
  cached_response <- cache_get rest_url ;;
  valid <- is_valid cached_response ;;
  if valid then
    match cached_response with
    | Some (_, raw_text) => parse_or_raise rest_url raw_text
    | None => raise TypeError
    end
  else
    response <- request (get_request rest_url) ;;
    if status response =? 200 then
      t <- now ;;
      cache_set rest_url (t, content response) ;;;
      parse_or_raise rest_url (content response)
    else
      raise (FailedRequestError (content response)).

(** *** [delete], [save], [reload] *)

Definition delete_params (purge recurse : bool) : list string :=
  (if purge then ["purge=true"] else []) ++
  (if recurse then ["recurse=true"] else []).

Definition delete_url (rest_url : string) (purge recurse : bool) : string :=
  match delete_params purge recurse with
  | [] => rest_url
  | params => rest_url +:+ "?" +:+ String.concat "&" params
  end.

Definition delete (config_object : ConfigObject) (purge recurse : bool)
    : Py Response :=
  let rest_url := delete_url (href config_object) purge recurse in
  response <- request (mkRequest rest_url DELETE None xml_headers) ;;
  cache_clear ;;;
  if status response =? 200 then ret response
  else raise (FailedRequestError (content response)).

Definition save (obj : ConfigObject) : Py Response :=
  response <- request (mkRequest (href obj) (save_method obj)
                                 (Some (message obj)) xml_headers) ;;
  cache_clear ;;;
  if (400 <=? status response) && (status response <? 600)
  then raise (FailedRequestError (content response))
  else ret response.

Definition reload : Py Response :=
  base <- self_service_url ;;
  response <- request (mkRequest (url base ["reload"] []) POST None []) ;;
  cache_clear ;;;
  ret response.

(** *** Workspaces *)

Definition get_workspaces : Py (list Workspace) :=
  base <- self_service_url ;;
  description <- get_xml (base +:+ "/workspaces.xml") ;;
  mapM (fun node => lift (workspace_from_index node))
       (findall "workspace" description).

Definition get_workspace (name : string) : Py (option Workspace) :=
  workspaces <- get_workspaces ;;
  let candidates := filter (fun w => workspace_name w = name) workspaces in
  match candidates with
  | [] => ret None
  | [w] => ret (Some w)
  | _ => raise (AmbiguousRequestError None)
  end.

Definition get_default_workspace : Workspace := mkWorkspace "default".

(** A string is looked up, a handle is taken as it is. *)
Definition resolve_workspace (workspace : WorkspaceArg)
    : Py (option Workspace) :=
  match workspace with
  | WorkspaceByName s => get_workspace s
  | WorkspaceByHandle w => ret (Some w)
  end.

(** *** Stores *)

(** The condition [n.find("name").text == name] of the comprehensions. *)
Definition named (name : string) (n : Element) : Outcome bool :=
  match find "name" n with
  | None => Raise AttributeError
  | Some e => Return (bool_decide (text_of e = Some name))
  end.

(** The branch [workspace is not None] of [get_store]. *)
Definition get_store_in (name : string) (workspace : WorkspaceArg)
    : Py (option Store) :=
  resolved <- resolve_workspace workspace ;;
  match resolved with
  | None => ret None
  | Some workspace =>
    ds_list <- get_xml (datastore_url workspace) ;;
    cs_list <- get_xml (coveragestore_url workspace) ;;
    datastores <-
      lift (comprehension_if (named name) (findall "dataStore" ds_list)) ;;
    coveragestores <-
      lift (comprehension_if (named name) (findall "coverageStore" cs_list)) ;;
    match datastores, coveragestores with
    | [d], [] =>
      s <- lift (datastore_from_index workspace d) ;; ret (Some s)
    | [], [c] =>
      s <- lift (coveragestore_from_index workspace c) ;; ret (Some s)
    | [], [] =>
      raise (FailedRequestError
               ("No store found in " +:+ str_workspace workspace +:+
                " named: " +:+ name))
    | _, _ =>
      raise (AmbiguousRequestError
               (Some (str_workspace workspace +:+ " and name: " +:+ name +:+
                      " do not uniquely identify a layer")))
    end
  end.

(** One turn of the loop of the branch [workspace is None]. *)
Definition get_store_step (name : string) (ws : Workspace)
    (store : option Store) : Py (option Store) :=
  found <- try_except (get_store_in name (WorkspaceByHandle ws)) (ret None) ;;
  match found with
  | Some f =>
    match store with
    | Some _ =>
      raise (AmbiguousRequestError
               (Some ("Multiple stores found named: " +:+ name)))
    | None => ret (Some f)
    end
  | None => ret store
  end.

Definition get_store (name : string) (workspace : option WorkspaceArg)
    : Py (option Store) :=
  match workspace with
  | None =>
    workspaces <- get_workspaces ;;
    store <- for_each (get_store_step name) workspaces None ;;
    match store with
    | None => raise (FailedRequestError ("No store found named: " +:+ name))
    | Some s => ret (Some s)
    end
  | Some workspace => get_store_in name workspace
  end.

Definition get_stores_in (workspace : WorkspaceArg) : Py (list Store) :=
  resolved <- resolve_workspace workspace ;;
  match resolved with
  | None => raise AttributeError
  | Some workspace =>
    ds_list <- get_xml (datastore_url workspace) ;;
    cs_list <- get_xml (coveragestore_url workspace) ;;
    datastores <- mapM (fun n => lift (datastore_from_index workspace n))
                       (findall "dataStore" ds_list) ;;
    coveragestores <- mapM (fun n => lift (coveragestore_from_index workspace n))
                           (findall "coverageStore" cs_list) ;;
    ret (datastores ++ coveragestores)
  end.

Definition get_stores (workspace : option WorkspaceArg) : Py (list Store) :=
  match workspace with
  | Some workspace => get_stores_in workspace
  | None =>
    workspaces <- get_workspaces ;;
    for_each (fun ws stores =>
                a <- get_stores_in (WorkspaceByHandle ws) ;; ret (stores ++ a))
             workspaces []
  end.

(** *** Resources *)

Definition get_resources_in_workspace (workspace : Workspace)
    : Py (list Resource) :=
  stores <- get_stores_in (WorkspaceByHandle workspace) ;;
  for_each (fun store resources =>
              r <- store_get_resources store ;; ret (resources ++ r))
           stores [].

Definition get_resources (store : option StoreArg)
    (workspace : option WorkspaceArg) : Py (list Resource) :=
  workspace <- match workspace with
               | Some a => resolve_workspace a
               | None => ret None
               end ;;
  store <- match store with
           | Some (StoreByName s) =>
             get_store s (option_map WorkspaceByHandle workspace)
           | Some (StoreByHandle st) => ret (Some st)
           | None => ret None
           end ;;
  match store, workspace with
  | Some st, _ => store_get_resources st
  | None, Some ws => get_resources_in_workspace ws
  | None, None =>
    workspaces <- get_workspaces ;;
    for_each (fun ws resources =>
                r <- get_resources_in_workspace ws ;; ret (resources ++ r))
             workspaces []
  end.

(** The branch [store is not None] of [get_resource]. *)
Definition get_resource_in_store (name : string) (store : StoreArg)
    : Py (option Resource) :=
  resources <- get_resources (Some store) None ;;
  let candidates := filter (fun s => resource_name s = name) resources in
  match candidates with
  | [] => ret None
  | [r] => ret (Some r)
  | _ => raise (AmbiguousRequestError None)
  end.

(** The branch [workspace is not None]. *)
Definition get_resource_in_workspace (name : string) (workspace : WorkspaceArg)
    : Py (option Resource) :=
  stores <- get_stores_in workspace ;;
  first_some (fun store => get_resource_in_store name (StoreByHandle store))
             stores.

Definition get_resource (name : string) (store : option StoreArg)
    (workspace : option WorkspaceArg) : Py (option Resource) :=
  match store, workspace with
  | Some store, _ => get_resource_in_store name store
  | None, Some workspace => get_resource_in_workspace name workspace
  | None, None =>
    workspaces <- get_workspaces ;;
    first_some (fun ws => get_resource_in_workspace name (WorkspaceByHandle ws))
               workspaces
  end.


(** The stores the loop of the unscoped [get_store] finds when it visits the
    workspaces of [l] from world [w], a lookup that raises counting as no
    store. *)
Fixpoint stores_found (name : string) (l : list Workspace) (w : World Net)
    : list Store :=
  match l with
  | [] => []
  | ws :: rest =>
    match get_store_in name (WorkspaceByHandle ws) w with
    | (Return (Some s), w') => s :: stores_found name rest w'
    | (_, w') => stores_found name rest w'
    end
  end.

(** *** Layers and styles *)

(** Modelled from the spec: [layer.py] is not among the sources. A layer is
    "fetched by name against a flat listing endpoint (not scoped by
    workspace)": [fetch] reads the layer's own REST location. *)
Definition layer_fetch (name : string) : Py Layer :=
  dom <- get_xml (layer_href name) ;; ret (mkLayer name dom).

Definition get_layer (name : string) : Py (option Layer) :=
  try_except_FailedRequestError
    (lyr <- layer_fetch name ;; ret (Some lyr))
    (ret None).

(** The branch [workspace is not None] of [get_style]. *)
Definition get_style_in (name : string) (workspace : Workspace)
    : Py (option Style) :=
  base <- self_service_url ;;
  let style_url :=
    url base ["workspaces"; workspace_name workspace; "styles"; name +:+ ".xml"] [] in
  try_except
    (dom <- get_xml style_url ;; ret (Some (mkStyle name (Some workspace))))
    (ret None).

Definition get_style (name : string) (workspace : option Workspace)
    : Py (option Style) :=
  match workspace with
  | Some workspace => get_style_in name workspace
  | None =>
    base <- self_service_url ;;
    let style_url := url base ["styles"; name +:+ ".xml"] [] in
    r <- try_except
           (dom <- get_xml style_url ;; ret (Some (mkStyle name None)))
           (ret None) ;;
    match r with
    | Some style => ret (Some style)
    | None =>
      workspaces <- get_workspaces ;;
      first_some (get_style_in name) workspaces
    end
  end.

(** *** Creating stores *)

Definition conflict_message (name : string) (workspace : WorkspaceArg) : string :=
  "There is already a store named " +:+ name +:+
  (if truthy_workspace workspace
   then " in " +:+ str_workspace_arg workspace else "").

(** The test of [create_pg_featurestore] that the existing store is the one
    being added; [and] stops at the first difference. *)
Definition same_connection (params : gmap string string)
    (host : string) (port : Port) (database : string) (user : option string)
    : Py bool :=
  p <- lift (getitem params "port") ;;
  if negb (bool_decide (p = str_port port)) then ret false else
  d <- lift (getitem params "database") ;;
  if negb (bool_decide (d = database)) then ret false else
  h <- lift (getitem params "host") ;;
  if negb (bool_decide (h = host)) then ret false else
  u <- lift (getitem params "user") ;;
  ret (bool_decide (Some u = user)).

Definition pg_datastore_xml (name host : string) (port : Port)
    (database schema user passwd : string) : string :=
  "<dataStore>" +:+ LF +:+
  "<name>" +:+ name +:+ "</name>" +:+ LF +:+
  "<connectionParameters>" +:+
  "<host>" +:+ host +:+ "</host>" +:+ LF +:+
  "<port>" +:+ str_port port +:+ "</port>" +:+ LF +:+
  "<database>" +:+ database +:+ "</database>" +:+ LF +:+
  "<schema>" +:+ schema +:+ "</schema>" +:+ LF +:+
  "<user>" +:+ user +:+ "</user>" +:+ LF +:+
  "<passwd>" +:+ passwd +:+ "</passwd>" +:+ LF +:+
  "<dbtype>postgis</dbtype>" +:+ LF +:+
  "</connectionParameters>" +:+ LF +:+
  "</dataStore>".

(** What follows the collision check of [create_pg_featurestore]: build the
    body, PUT over an existing store or POST a new one, clear the cache. *)
Definition create_pg_featurestore_send (name : string) (workspace : WorkspaceArg)
    (store : option Store) (host : string) (port : Port)
    (database schema : string) (user : option string) (passwd : string)
    : Py unit :=
  let workspace := util_name_workspace workspace in
  match user with
  | None => raise (PyException "Undefined user" None)
  | Some user =>
    let xml := pg_datastore_xml name host port database schema user passwd in
    let headers := [("Content-type", "text/xml")] in
    base <- self_service_url ;;
    response <-
      match store with
      | Some _ =>
        request (mkRequest (url base ["workspaces"; workspace; "datastores"; name] [])
                           PUT (Some xml) headers)
      | None =>
        request (mkRequest (url base ["workspaces"; workspace; "datastores.xml"] [])
                           POST (Some xml) headers)
      end ;;
    cache_clear ;;;
    if negb (status response =? 201) && negb (status response =? 200)
    then raise (UploadError (content response))
    else ret tt
  end.

Definition create_pg_featurestore (name : string)
    (workspace : option WorkspaceArg) (overwrite : bool)
    (host : string) (port : Port) (database schema : string)
    (user : option string) (passwd : string) : Py unit :=
  if bool_decide (user = Some "") && bool_decide (passwd = "") then
    raise (PyException
             "Both username and password are empty strings. Use a different user/passwd combination"
             None)
  else
    let workspace := match workspace with
                     | None => WorkspaceByHandle get_default_workspace
                     | Some a => a
                     end in
    store <- try_except_FailedRequestError
               (get_store name (Some workspace)) (ret None) ;;
    let send := create_pg_featurestore_send name workspace store host port
                                            database schema user passwd in
    match store with
    | Some st =>
      if overwrite then
        params <- connection_parameters st ;;
        same <- same_connection params host port database user ;;
        if same then ret tt else send
      else raise (ConflictingDataError (conflict_message name workspace))
    | None => send
    end.

Definition featuretype_xml (name srs : string) : string :=
  "<featureType>" +:+ LF +:+
  "<enabled>true</enabled>" +:+ LF +:+
  "<metadata />" +:+ LF +:+
  "<keywords><string>KEYWORD</string></keywords>" +:+ LF +:+
  "<projectionPolicy>REPROJECT_TO_DECLARED</projectionPolicy>" +:+ LF +:+
  "<title>" +:+ name +:+ "</title>" +:+ LF +:+
  "<name>" +:+ name +:+ "</name>" +:+ LF +:+
  "<srs>" +:+ srs +:+ "</srs>" +:+
  "</featureType>".

Definition create_pg_featuretype (name : string) (store : StoreArg)
    (workspace : option WorkspaceArg) (srs : string) : Py unit :=
  let workspace := match workspace with
                   | None => WorkspaceByHandle get_default_workspace
                   | Some a => a
                   end in
  let workspace := util_name_workspace workspace in
  let store := util_name_store store in
  base <- self_service_url ;;
  let ds_url :=
    url base ["workspaces"; workspace; "datastores"; store; "featuretypes.xml"] [] in
  response <- request (mkRequest ds_url POST (Some (featuretype_xml name srs))
                                 [("Content-type", "text/xml")]) ;;
  if negb (status response =? 201) && negb (status response =? 200)
  then raise (UploadError (content response))
  else ret tt.

(** The collision check shared by [create_shp_featurestore] and
    [create_coveragestore]: a lookup that returns is a collision, a lookup
    that raises [FailedRequestError] is not. *)
Definition check_no_store (name : string) (workspace : WorkspaceArg) : Py unit :=
  try_except_FailedRequestError
    (store <- get_store name (Some workspace) ;;
     raise (ConflictingDataError (conflict_message name workspace)))
    (ret tt).

Definition charset_params (charset : option string) : list (string * string) :=
  match charset with
  | Some c => [("charset", c)]
  | None => []
  end.

Definition zip_headers : list (string * string) :=
  [("Content-type", "application/zip"); ("Accept", "application/xml")].

Definition create_shp_featurestore (name : string) (data : UploadData)
    (workspace : option WorkspaceArg) (overwrite : bool)
    (charset : option string) : Py unit :=
  let workspace := match workspace with
                   | None => WorkspaceByHandle get_default_workspace
                   | Some a => a
                   end in
  (if overwrite then ret tt else check_no_store name workspace) ;;;
  let workspace := util_name_workspace workspace in
  base <- self_service_url ;;
  let ds_url :=
    url base ["workspaces"; workspace; "datastores"; name; "file.shp"]
        (charset_params charset) in
  archive <- match data with
             | DataDict files => ret (prepare_upload_bundle name files)
             | DataPath path => ret path
             | DataStream _ => raise TypeError
             end ;;
  response <- request (mkRequest ds_url PUT (Some (open_file archive)) zip_headers) ;;
  cache_clear ;;;
  if negb (status response =? 201)
  then raise (UploadError (content response))
  else ret tt.

Definition create_coveragestore (name : string) (data : UploadData)
    (workspace : option WorkspaceArg) (overwrite : bool) : Py unit :=
  let workspace := match workspace with
                   | None => WorkspaceByHandle get_default_workspace
                   | Some a => a
                   end in
  (if overwrite then ret tt else check_no_store name workspace) ;;;
  let '(message, (content_type, ext)) :=
    match data with
    | DataDict files =>
      (open_file (prepare_upload_bundle name files),
       if bool_decide (is_Some (files !! "tfw"))
       then ("application/archive", "worldimage")
       else ("image/tiff", "geotiff"))
    | DataPath path => (open_file path, ("image/tiff", "geotiff"))
    | DataStream body => (body, ("image/tiff", "geotiff"))
    end in
  match workspace with
  | WorkspaceByName _ => raise AttributeError
  | WorkspaceByHandle ws =>
    base <- self_service_url ;;
    let cs_url :=
      url base ["workspaces"; workspace_name ws; "coveragestores"; name;
                "file." +:+ ext] [] in
    response <- request (mkRequest cs_url PUT (Some message)
                           [("Content-type", content_type);
                            ("Accept", "application/xml")]) ;;
    cache_clear ;;;
    if negb (status response =? 201)
    then raise (UploadError (content response))
    else ret tt
  end.

Definition add_data_to_store (store : StoreArg) (name : string)
    (data : UploadData) (workspace : option WorkspaceArg)
    (overwrite : bool) (charset : option string) : Py unit :=
  store <- match store with
           | StoreByName s => get_store s workspace
           | StoreByHandle st => ret (Some st)
           end ;;
  match store with
  | None => raise AttributeError
  | Some st =>
    workspace <-
      match workspace with
      | Some a =>
        let w := util_name_workspace a in
        if bool_decide (workspace_name (store_workspace st) = w) then ret w
        else raise (AssertionError
                      ("Specified store (" +:+ store_name st +:+
                       ") is not in specified workspace (" +:+ w +:+ ")!"))
      | None => ret (workspace_name (store_workspace st))
      end ;;
    let store := store_name st in
    bundle <- match data with
              | DataDict files => ret (prepare_upload_bundle name files)
              | DataPath path => ret path
              | DataStream _ => raise TypeError
              end ;;
    let params := (if overwrite then [("update", "overwrite")] else []) ++
                  charset_params charset in
    base <- self_service_url ;;
    let upload_url :=
      url base ["workspaces"; workspace; "datastores"; store; "file.shp"] params in
    response <- request (mkRequest upload_url PUT (Some (open_file bundle))
                           [("Content-Type", "application/zip");
                            ("Accept", "application/xml")]) ;;
    cache_clear ;;;
    if negb (status response =? 201)
    then raise (UploadError (content response))
    else ret tt
  end.

(** *** Creating styles and workspaces *)

Definition out_of_2xx (s : Z) : bool := (s <? 200) || (299 <? s).

Definition create_style (name sld : string) (overwrite : bool) : Py unit :=
  style <- get_style name None ;;
  (if negb overwrite && bool_decide (is_Some style)
   then raise (ConflictingDataError
                 ("There is already a style named " +:+ name))
   else ret tt) ;;;
  base <- self_service_url ;;
  (if negb overwrite || bool_decide (style = None) then
     let xml := "<style><name>" +:+ name +:+ "</name><filename>" +:+ name +:+
                ".sld</filename></style>" in
     response <- request (mkRequest (url base ["styles"] [("name", name)])
                                    POST (Some xml) xml_headers) ;;
     if out_of_2xx (status response)
     then raise (UploadError (content response)) else ret tt
   else ret tt) ;;;
  response <- request (mkRequest (url base ["styles"; name +:+ ".sld"] [])
                         PUT (Some sld)
                         [("Content-type", "application/vnd.ogc.sld+xml");
                          ("Accept", "application/xml")]) ;;
  cache_clear ;;;
  if out_of_2xx (status response)
  then raise (UploadError (content response)) else ret tt.

Definition create_workspace (name uri : string) : Py (option Workspace) :=
  let xml := "<namespace><prefix>" +:+ name +:+ "</prefix><uri>" +:+ uri +:+
             "</uri></namespace>" in
  base <- self_service_url ;;
  response <- request (mkRequest (base +:+ "/namespaces/") POST (Some xml)
                         [("Content-Type", "application/xml")]) ;;
  if (200 <=? status response) && (status response <? 300) then
    cache_clear ;;; get_workspace name
  else
    raise (AssertionError ("Error creating workspace: " +:+
                           pretty (status response) +:+ ": " +:+
                           content response)).

Definition set_default_workspace (name : string) : Py unit :=
  workspace <- get_workspace name ;;
  match workspace with
  | None => ret tt
  | Some workspace =>
    base <- self_service_url ;;
    response <- request (mkRequest (base +:+ "/workspaces/default.xml") PUT
                           (Some (workspace_message workspace))
                           [("Content-Type", "application/xml")]) ;;
    if (200 <=? status response) && (status response <? 300) then cache_clear
    else
      raise (AssertionError ("Error setting default workspace: " +:+
                             pretty (status response) +:+ ": " +:+
                             content response))
  end.

(** The world after the transport has answered [r] and the cache has been
    cleared. *)
Definition after_mutation (r : Request) (w : World Net) : World Net :=
  mkWorld (mkCatalog (service_url (catalog w)) ∅)
          (snd (http_request r (net w))) (sent w ++ [r]).

(** The workspace a creation call works in: the one given, or the default. *)
Definition target_workspace (workspace : option WorkspaceArg) : WorkspaceArg :=
  match workspace with
  | None => WorkspaceByHandle get_default_workspace
  | Some a => a
  end.

(** The two requests of [create_style]. *)
Definition style_post (base name : string) : Request :=
  mkRequest (url base ["styles"] [("name", name)]) POST
            (Some ("<style><name>" +:+ name +:+ "</name><filename>" +:+ name +:+
                   ".sld</filename></style>"))
            xml_headers.

Definition style_put (base name sld : string) : Request :=
  mkRequest (url base ["styles"; name +:+ ".sld"] []) PUT (Some sld)
            [("Content-type", "application/vnd.ogc.sld+xml");
             ("Accept", "application/xml")].

(** *** Construction, [gs_base_url], [about] *)

(** [Catalog.__init__]: what it leaves in the object besides the transport
    and its credentials. *)
Definition Catalog_init (url_given : string) : Catalog :=
  mkCatalog (if endswith url_given "/"
             then strip (Stdlib.Strings.String.list_ascii_of_string "/") url_given
             else url_given)
            ∅.

(** [self.service_url.rstrip("rest")]. *)
Definition gs_base_url (c : Catalog) : string :=
  rstrip (Stdlib.Strings.String.list_ascii_of_string "rest") (service_url c).

Definition about : Py string :=
  base <- self_service_url ;;
  response <- request (mkRequest (base +:+ "/about/version.html") GET None []) ;;
  if status response =? 200 then ret (content response)
  else ret ("Cannot get information about catalog." +:+ LF).

(** *** Layer groups *)

Definition get_layergroup (name : option string) : Py (option LayerGroup) :=
  try_except_FailedRequestError
    (match name with
     | None => raise TypeError
     | Some name =>
       base <- self_service_url ;;
       group <- get_xml (url base ["layergroups"; name +:+ ".xml"] []) ;;
       match find "name" group with
       | None => raise AttributeError
       | Some n => ret (Some (mkLayerGroup (text_of n)))
       end
     end)
    (ret None).

Definition get_layergroups : Py (list LayerGroup) :=
  base <- self_service_url ;;
  groups <- get_xml (base +:+ "/layergroups.xml") ;;
  mapM (fun g => match find "name" g with
                 | None => raise AttributeError
                 | Some n => ret (mkLayerGroup (text_of n))
                 end)
       (findall "layerGroup" groups).

Definition create_layergroup {L S B : Type} (name : string) (layers : L)
    (styles : S) (bounds : B) : Py (UnsavedLayerGroup L S B) :=
  groups <- get_layergroups ;;
  if existsb (fun g => bool_decide (layergroup_name g = Some name)) groups
  then raise (ConflictingDataError
                ("LayerGroup named " +:+ name +:+ " already exists!"))
  else ret (mkUnsavedLayerGroup name layers styles bounds).

(** From world [w] to world [w'] the transport was called with GET only:
    the log of [w'] is the log of [w] followed by GET requests. *)
Definition only_gets (w w' : World Net) : Prop :=
  exists gets,
    sent w' = sent w ++ gets /\ Forall (fun r => req_method r = GET) gets.

End CatalogOperations.

(** ** A concrete server for the worked examples

    A transport that answers GET requests from a fixed table of pages (404
    otherwise) and every other request with one fixed status, a clock that
    stands still during a call, and a parser that knows the documents of the
    table. *)
Module Demo.

Record DemoNet : Type := mkDemoNet {
  clock : Z;
  pages : list (string * Response);
  write_status : Z
}.

Definition lookup_page (u : string) (ps : list (string * Response)) : Response :=
  match list_find (fun p => fst p = u) ps with
  | Some (_, (_, r)) => r
  | None => mkResponse 404 "No such page"
  end.

Definition demo_http (r : Request) (n : DemoNet) : Response * DemoNet :=
  match req_method r with
  | GET => (lookup_page (req_url r) (pages n), n)
  | _ => (mkResponse (write_status n) "", n)
  end.

Definition base : string := "http://gs/rest".

Definition demo_url (b : string) (segments : list string)
    (query : list (string * string)) : string :=
  b +:+ "/" +:+ String.concat "/" segments +:+
  match query with
  | [] => ""
  | _ => "?" +:+ String.concat "&" (map (fun kv => fst kv +:+ "=" +:+ snd kv) query)
  end.

Definition name_node (s : string) : Element := Elem "name" (Some s) [].
Definition entry (tag s : string) : Element := Elem tag None [name_node s].

(** The documents the parser knows, with their trees. *)
Definition documents : list (string * Element) :=
  [ ("<workspaces><workspace><name>a</name></workspace><workspace><name>b</name></workspace></workspaces>",
     Elem "workspaces" None [entry "workspace" "a"; entry "workspace" "b"]);
    ("<dataStores><dataStore><name>s</name></dataStore></dataStores>",
     Elem "dataStores" None [entry "dataStore" "s"]);
    ("<dataStores/>", Elem "dataStores" None []);
    ("<coverageStores><coverageStore><name>s</name></coverageStore></coverageStores>",
     Elem "coverageStores" None [entry "coverageStore" "s"]);
    ("<coverageStores/>", Elem "coverageStores" None []);
    ("<style><name>line</name></style>", Elem "style" None [name_node "line"]) ].

Definition demo_XML (s : string) : option Element :=
  match list_find (fun p => fst p = s) documents with
  | Some (_, (_, e)) => Some e
  | None => None
  end.

Definition workspaces_xml : string :=
  "<workspaces><workspace><name>a</name></workspace><workspace><name>b</name></workspace></workspaces>".
Definition one_datastore_xml : string :=
  "<dataStores><dataStore><name>s</name></dataStore></dataStores>".
Definition one_coveragestore_xml : string :=
  "<coverageStores><coverageStore><name>s</name></coverageStore></coverageStores>".

Definition demo_datastore_url (w : Workspace) : string :=
  demo_url base ["workspaces"; workspace_name w; "datastores.xml"] [].
Definition demo_coveragestore_url (w : Workspace) : string :=
  demo_url base ["workspaces"; workspace_name w; "coveragestores.xml"] [].

(** Every data store holds one resource, [r]; a coverage store holds none. *)
Definition demo_resources (s : Store) : list Resource :=
  match store_kind s with
  | DataStoreKind => [mkResource s "r"]
  | CoverageStoreKind => []
  end.

(** The connection of every data store. *)
Definition demo_connection : gmap string string :=
  <["host" := "localhost"]> (<["port" := "5432"]> (<["database" := "db"]>
    (<["user" := "postgres"]> ∅))).

#[global] Instance demo : Collaborators := {|
  Net := DemoNet;
  http_request := demo_http;
  datetime_now := clock;
  XML := demo_XML;
  url := demo_url;
  datastore_url := demo_datastore_url;
  coveragestore_url := demo_coveragestore_url;
  str_workspace := workspace_name;
  store_get_resources := fun s => ret (demo_resources s);
  connection_parameters := fun _ => ret demo_connection;
  layer_href := fun name => demo_url base ["layers"; name +:+ ".xml"] [];
  workspace_message := fun w => "<workspace><name>" +:+ workspace_name w +:+ "</name></workspace>";
  prepare_upload_bundle := fun name _ => name +:+ ".zip";
  open_file := fun path => path;
  util_name_workspace := fun x => match x with
                                  | WorkspaceByName s => s
                                  | WorkspaceByHandle w => workspace_name w
                                  end;
  util_name_store := fun x => match x with
                              | StoreByName s => s
                              | StoreByHandle st => store_name st
                              end
|}.

Definition page (u body : string) : string * Response := (u, mkResponse 200 body).

Definition start (t : Z) (ps : list (string * Response)) (ws : Z) : World DemoNet :=
  mkWorld (mkCatalog base ∅) (mkDemoNet t ps ws) [].

(** Workspaces [a] and [b]; [a] has a data store and a coverage store both
    named [s], [b] has one data store named [s]. *)
Definition site_clash : list (string * Response) :=
  [ page "http://gs/rest/workspaces.xml" workspaces_xml;
    page "http://gs/rest/workspaces/a/datastores.xml" one_datastore_xml;
    page "http://gs/rest/workspaces/a/coveragestores.xml" one_coveragestore_xml;
    page "http://gs/rest/workspaces/b/datastores.xml" one_datastore_xml;
    page "http://gs/rest/workspaces/b/coveragestores.xml" "<coverageStores/>" ].

(** Workspaces [a] and [b], each with one data store named [s]. *)
Definition site_twice : list (string * Response) :=
  [ page "http://gs/rest/workspaces.xml" workspaces_xml;
    page "http://gs/rest/workspaces/a/datastores.xml" one_datastore_xml;
    page "http://gs/rest/workspaces/a/coveragestores.xml" "<coverageStores/>";
    page "http://gs/rest/workspaces/b/datastores.xml" one_datastore_xml;
    page "http://gs/rest/workspaces/b/coveragestores.xml" "<coverageStores/>" ].

End Demo.


(** ** The catalogue definition dialog ([gui/dialogs/catalogdialog.py])

    The dialog is its five text boxes, the [ok] flag and the attributes
    [okPressed] sets. [QSettings] is a store of values by key; a value read
    back is a text or the null variant ([QPyNullVariant]); a key written
    inside a group is the group, a slash and the key, taken literally.
    Layout, sizes and titles have no part in what follows. *)
Module Dialog.

Inductive QVariant : Type := QNull | QText (s : string).

(** What [okPressed] leaves in [self.url], [self.username], ... *)
Record Connection : Type := mkConnection {
  url : string;
  username : string;
  password : string;
  name : string;
  geonodeUrl : string
}.

Record DefineCatalogDialog : Type := mkDialog {
  nameBox : string;
  urlBox : string;
  usernameBox : string;
  passwordBox : string;
  urlGeonodeBox : string;
  ok : bool;
  connection : option Connection
}.

(** [settings.value(key, default)]. *)
Definition value (settings : gmap string QVariant) (key default : string)
    : QVariant :=
  match settings !! key with
  | Some v => v
  | None => QText default
  end.

(** [box.setText(v)]: a line edit takes a text, not the null variant. *)
Definition setText (v : QVariant) : Outcome string :=
  match v with
  | QText s => Return s
  | QNull => Raise TypeError
  end.

(** [__init__] and [initGui]: the boxes as the dialog opens. *)
Definition initGui (settings : gmap string QVariant)
    : Outcome DefineCatalogDialog :=
  match setText (value settings "/OpenGeo/LastCatalogName"
                       "Default GeoServer catalog") with
  | Raise e => Raise e
  | Return name_text =>
    match setText (value settings "/OpenGeo/LastCatalogUrl"
                         "http://localhost:8080/geoserver") with
    | Raise e => Raise e
    | Return url_text =>
      let geonode_text :=
        match value settings "/OpenGeo/LastGeoNodeUrl" "http://localhost:8000/" with
        | QNull => ""
        | QText t => t
        end in
      Return (mkDialog name_text url_text "admin" "geoserver" geonode_text
                       false None)
    end
  end.

(** The loop of [okPressed] that looks for a catalogue name not yet in use:
    [name] is the candidate, [i] the next number to try. *)
Fixpoint free_name (fuel : nat) (catalogs : list string) (entered name : string)
    (i : Z) : option string :=
  match fuel with
  | O => None
  | S fuel' =>
    if bool_decide (name ∈ catalogs)
    then free_name fuel' catalogs entered (entered +:+ "_" +:+ pretty i) (i + 1)
    else Some name
  end.

Definition rest_url (url_text : string) : string :=
  let u := url_text +:+ "/rest" in
  if startswith u "http" then u else "http://" +:+ u.

Section OkPressed.
(** The conversion of [settings.value(key, True, bool)]. *)
Variable to_bool : QVariant -> bool.

Definition save_catalogs (settings : gmap string QVariant) : bool :=
  match settings !! "/OpenGeo/Settings/GeoServer/SaveCatalogs" with
  | Some v => to_bool v
  | None => true
  end.

(** [okPressed], with [catalogs] the keys of [self.explorer.catalogs()];
    [None] when the search for a name runs out of fuel. *)
Definition okPressed (fuel : nat) (catalogs : list string)
    (d : DefineCatalogDialog) (settings : gmap string QVariant)
    : option (DefineCatalogDialog * gmap string QVariant) :=
  match free_name fuel catalogs (nameBox d) (nameBox d) 2 with
  | None => None
  | Some chosen =>
    let c := mkConnection (rest_url (urlBox d)) (usernameBox d) (passwordBox d)
                          chosen (urlGeonodeBox d) in
    let settings :=
      <["/OpenGeo/LastGeoNodeUrl" := QText (urlGeonodeBox d)]>
        (<["/OpenGeo/LastCatalogUrl" := QText (urlBox d)]>
           (<["/OpenGeo/LastCatalogName" := QText (nameBox d)]> settings)) in
    let group := "/OpenGeo/GeoServer/" +:+ chosen in
    let settings :=
      if save_catalogs settings then
        <[group +:+ "/geonode" := QText (geonodeUrl c)]>
          (<[group +:+ "/password" := QText (password c)]>
             (<[group +:+ "/username" := QText (username c)]>
                (<[group +:+ "/url" := QText (url c)]> settings)))
      else settings in
    Some (mkDialog (nameBox d) (urlBox d) (usernameBox d) (passwordBox d)
                   (urlGeonodeBox d) true (Some c),
          settings)
  end.

End OkPressed.

(** The settings after the three values [okPressed] always writes. *)
Definition remembered (d : DefineCatalogDialog)
    (settings : gmap string QVariant) : gmap string QVariant :=
  <["/OpenGeo/LastGeoNodeUrl" := QText (urlGeonodeBox d)]>
    (<["/OpenGeo/LastCatalogUrl" := QText (urlBox d)]>
       (<["/OpenGeo/LastCatalogName" := QText (nameBox d)]> settings)).

Definition cancelPressed (d : DefineCatalogDialog) : DefineCatalogDialog :=
  mkDialog (nameBox d) (urlBox d) (usernameBox d) (passwordBox d)
           (urlGeonodeBox d) false (connection d).

(** The names the loop tries, in order: the entered name, then the name
    with [_2], [_3], ... appended. *)
Definition candidate (entered : string) (k : nat) : string :=
  match k with
  | O => entered
  | S _ => entered +:+ "_" +:+ pretty (Z.of_nat k + 1)
  end.

End Dialog.


(** * Properties *)

Section Properties.
Context `{C : Collaborators}.

Local Abbreviation Py := (M Net).

(** ** The monad and the primitive effects *)

Lemma bind_return {A B} (m : Py A) (k : A -> Py B) w a w' :
  m w = (Return a, w') -> bind m k w = k a w'.
Proof. intros H. unfold bind. now rewrite H. Qed.


Lemma mapM_lift_world {A B} (f : A -> Outcome B) l (w : World Net) :
  snd (mapM (fun x => lift (f x)) l w) = w.
Proof.
  induction l as [|x l IH]; simpl; [reflexivity |].
  unfold bind at 1, lift at 1. destruct (f x) as [e|y]; [reflexivity |].
  unfold bind at 1.
  destruct (mapM (fun x => lift (f x)) l w) as [[e|ys] w1]; exact IH.
Qed.

Lemma parse_or_raise_world rest_url xml (w : World Net) :
  snd (parse_or_raise rest_url xml w) = w.
Proof. unfold parse_or_raise. now destruct (XML xml). Qed.

Lemma parse_or_raise_unfold rest_url xml (w : World Net) :
  parse_or_raise rest_url xml w =
  (match XML xml with
   | Some dom => Return dom
   | None => Raise (PyException (non_xml_message rest_url xml) (Some ExpatError))
   end, w).
Proof. unfold parse_or_raise. now destruct (XML xml). Qed.

(** ** [get_xml]: served from the cache, or fetched *)

Lemma get_xml_hit rest_url (w : World Net) stamp raw_text :
  _cache (catalog w) !! rest_url = Some (stamp, raw_text) ->
  datetime_now (net w) - stamp < five_seconds ->
  get_xml rest_url w = parse_or_raise rest_url raw_text w.
Proof.
  intros Hc Ht. unfold get_xml, bind, cache_get, is_valid, now, ret. simpl.
  rewrite Hc. simpl.
  destruct (Z.ltb_spec (datetime_now (net w) - stamp) five_seconds); [done | lia].
Qed.

Lemma get_xml_miss rest_url (w : World Net) :
  (forall stamp raw_text,
      _cache (catalog w) !! rest_url = Some (stamp, raw_text) ->
      five_seconds <= datetime_now (net w) - stamp) ->
  get_xml rest_url w =
  let response := fst (http_request (get_request rest_url) (net w)) in
  let w1 := after_get rest_url w in
  if status response =? 200 then
    parse_or_raise rest_url (content response)
      (mkWorld (mkCatalog (service_url (catalog w))
                  (<[rest_url := (datetime_now (net w1), content response)]>
                     (_cache (catalog w))))
               (net w1) (sent w1))
  else (Raise (FailedRequestError (content response)), w1).
Proof.
  intros Hold. unfold get_xml, bind, cache_get, is_valid, now, ret, request,
    after_get, after_request, cache_set, raise. simpl.
  destruct (_cache (catalog w) !! rest_url) as [[stamp raw]|] eqn:Hc; simpl.
  - specialize (Hold _ _ eq_refl).
    destruct (Z.ltb_spec (datetime_now (net w) - stamp) five_seconds); [lia |].
    destruct (http_request _ (net w)) as [response n']. simpl.
    now destruct (status response =? 200).
  - destruct (http_request _ (net w)) as [response n']. simpl.
    now destruct (status response =? 200).
Qed.

(** The message of the decode error names the URL and carries the payload. *)
Lemma non_xml_message_includes rest_url xml :
  exists before between,
    non_xml_message rest_url xml = before +:+ rest_url +:+ between +:+ xml.
Proof.
  exists "GeoServer gave non-XML response for [GET ", "]: ".
  reflexivity.
Qed.

(** C9, as amended. A GET whose payload is decoded (the text of a cache
    entry younger than five seconds, or else the body of an answer with
    status 200) and is not well-formed XML raises the plain exception that
    wraps the parser's error, with a message that includes the request URL
    and the raw payload. An answer with any other status raises
    [FailedRequestError] with the body alone, whatever the body is: it is
    never handed to the parser. *)
Theorem get_xml_non_xml_payload rest_url (w : World Net) payload :
  (XML payload = None ->
   ((exists stamp,
        _cache (catalog w) !! rest_url = Some (stamp, payload) /\
        datetime_now (net w) - stamp < five_seconds)
    \/
    ((forall stamp raw_text,
         _cache (catalog w) !! rest_url = Some (stamp, raw_text) ->
         five_seconds <= datetime_now (net w) - stamp) /\
     status (fst (http_request (get_request rest_url) (net w))) = 200 /\
     content (fst (http_request (get_request rest_url) (net w))) = payload)) ->
   fst (get_xml rest_url w) =
     Raise (PyException (non_xml_message rest_url payload) (Some ExpatError)) /\
   exists before between,
     non_xml_message rest_url payload =
     before +:+ rest_url +:+ between +:+ payload) /\
  ((forall stamp raw_text,
       _cache (catalog w) !! rest_url = Some (stamp, raw_text) ->
       five_seconds <= datetime_now (net w) - stamp) ->
   status (fst (http_request (get_request rest_url) (net w))) <> 200 ->
   get_xml rest_url w =
     (Raise (FailedRequestError
               (content (fst (http_request (get_request rest_url) (net w))))),
      after_get rest_url w)).
Proof.
  split.
  - intros Hbad Hsrc. split; [| apply non_xml_message_includes].
    destruct Hsrc as [(stamp & Hc & Ht) | (Hold & Hs & Hp)].
    + rewrite (get_xml_hit _ _ _ _ Hc Ht), parse_or_raise_unfold.
      now rewrite Hbad.
    + rewrite (get_xml_miss _ _ Hold). cbv zeta. rewrite Hs. simpl.
      rewrite parse_or_raise_unfold, Hp, Hbad. reflexivity.
  - intros Hold Hs. rewrite (get_xml_miss _ _ Hold). cbv zeta.
    destruct (Z.eqb_spec
                (status (fst (http_request (get_request rest_url) (net w)))) 200);
      [contradiction | reflexivity].
Qed.

(** C10. When the transport's answer has any status other than 200,
    [get_xml] leaves the cache as it was; and then either the call was served
    from a valid entry, or it raised [FailedRequestError] with the answer's
    body and changed nothing but what the transport call itself changed. So a
    response is stored only on status 200. *)
Theorem get_xml_stores_only_200 rest_url (w : World Net) :
  status (fst (http_request (get_request rest_url) (net w))) <> 200 ->
  _cache (catalog (snd (get_xml rest_url w))) = _cache (catalog w) /\
  ((exists stamp raw_text,
       _cache (catalog w) !! rest_url = Some (stamp, raw_text) /\
       datetime_now (net w) - stamp < five_seconds /\
       get_xml rest_url w = parse_or_raise rest_url raw_text w)
   \/
   get_xml rest_url w =
     (Raise (FailedRequestError
               (content (fst (http_request (get_request rest_url) (net w))))),
      after_get rest_url w)).
Proof.
  intros Hs.
  destruct (_cache (catalog w) !! rest_url) as [[stamp raw]|] eqn:Hc.
  - destruct (Z.lt_ge_cases (datetime_now (net w) - stamp) five_seconds) as [Ht|Ht].
    + pose proof (get_xml_hit _ _ _ _ Hc Ht) as E. split.
      * now rewrite E, parse_or_raise_world.
      * left. exists stamp, raw. auto.
    + assert (Hold : forall s r, _cache (catalog w) !! rest_url = Some (s, r) ->
                                 five_seconds <= datetime_now (net w) - s).
      { intros s r Hsr. rewrite Hc in Hsr. now inversion Hsr; subst. }
      pose proof (get_xml_miss _ _ Hold) as E. cbv zeta in E.
      destruct (Z.eqb_spec (status (fst (http_request (get_request rest_url) (net w)))) 200);
        [contradiction |].
      rewrite E. split; [reflexivity | now right].
  - assert (Hold : forall s r, _cache (catalog w) !! rest_url = Some (s, r) ->
                               five_seconds <= datetime_now (net w) - s).
    { intros s r Hsr. rewrite Hc in Hsr. discriminate. }
    pose proof (get_xml_miss _ _ Hold) as E. cbv zeta in E.
    destruct (Z.eqb_spec (status (fst (http_request (get_request rest_url) (net w)))) 200);
      [contradiction |].
    rewrite E. split; [reflexivity | now right].
Qed.

(** ** [delete] and [save] *)

Lemma delete_unfold config_object purge recurse (w : World Net) :
  let r := mkRequest (delete_url (href config_object) purge recurse)
                     DELETE None xml_headers in
  let response := fst (http_request r (net w)) in
  delete config_object purge recurse w =
  (if status response =? 200 then Return response
   else Raise (FailedRequestError (content response)),
   mkWorld (mkCatalog (service_url (catalog w)) ∅)
           (snd (http_request r (net w))) (sent w ++ [r])).
Proof.
  cbv zeta. unfold delete, bind, request, cache_clear, ret, raise. simpl.
  destruct (http_request _ (net w)) as [response n']. simpl.
  now destruct (status response =? 200).
Qed.

Lemma save_unfold obj (w : World Net) :
  let r := mkRequest (href obj) (save_method obj) (Some (message obj))
                     xml_headers in
  let response := fst (http_request r (net w)) in
  save obj w =
  (if (400 <=? status response) && (status response <? 600)
   then Raise (FailedRequestError (content response))
   else Return response,
   mkWorld (mkCatalog (service_url (catalog w)) ∅)
           (snd (http_request r (net w))) (sent w ++ [r])).
Proof.
  cbv zeta. unfold save, bind, request, cache_clear, ret, raise. simpl.
  destruct (http_request _ (net w)) as [response n']. simpl.
  now destruct ((400 <=? status response) && (status response <? 600)).
Qed.

(** C8, as amended. [delete] raises [FailedRequestError] exactly when the
    status of the answer is not 200 (and returns the answer otherwise);
    [save] raises it exactly when the status is from 400 to 599. *)
Theorem delete_and_save_failures config_object purge recurse (w : World Net) :
  let dr := fst (http_request
                   (mkRequest (delete_url (href config_object) purge recurse)
                              DELETE None xml_headers) (net w)) in
  let sr := fst (http_request
                   (mkRequest (href config_object) (save_method config_object)
                              (Some (message config_object)) xml_headers)
                   (net w)) in
  ((exists detail, fst (delete config_object purge recurse w)
                   = Raise (FailedRequestError detail))
     <-> status dr <> 200) /\
  (fst (delete config_object purge recurse w) = Return dr <-> status dr = 200) /\
  ((exists detail, fst (save config_object w) = Raise (FailedRequestError detail))
     <-> 400 <= status sr < 600) /\
  (fst (save config_object w) = Return sr <-> ~ (400 <= status sr < 600)).
Proof.
  cbv zeta.
  pose proof (delete_unfold config_object purge recurse w) as Ed.
  pose proof (save_unfold config_object w) as Es. cbv zeta in Ed, Es.
  rewrite Ed, Es. simpl. clear Ed Es.
  destruct (http_request (mkRequest (delete_url _ _ _) _ _ _) (net w)) as [dr dn].
  destruct (http_request (mkRequest (href _) _ _ _) (net w)) as [sr sn].
  simpl.
  destruct (Z.eqb_spec (status dr) 200) as [Hd|Hd];
    destruct (Z.leb_spec 400 (status sr)) as [Hlo|Hlo];
    destruct (Z.ltb_spec (status sr) 600) as [Hhi|Hhi]; simpl;
    repeat match goal with
           | |- _ /\ _ => split
           | |- _ <-> _ => split
           end;
    try (intros [? ?]; first [discriminate | lia]);
    try (intros; first [discriminate | lia | congruence | reflexivity]);
    try (intros; eexists; reflexivity);
    try (intros ? [? ?]; first [discriminate | lia]).
Qed.

(** ** Lookups within one scope *)

(** The entries a comprehension over [named name] keeps are the entries whose
    name element has exactly the text [name]. *)
Lemma comprehension_if_named name nodes kept :
  comprehension_if (named name) nodes = Return kept ->
  kept = filter (fun n => text_of <$> find "name" n = Some (Some name)) nodes.
Proof.
  revert kept. induction nodes as [|n nodes IH]; intros kept H; simpl in H.
  - now inversion H.
  - unfold named in H at 1.
    destruct (find "name" n) as [e|] eqn:Hf; [| discriminate].
    destruct (comprehension_if (named name) nodes) as [?|ys]; [discriminate |].
    inversion H; subst; clear H. rewrite (IH ys eq_refl).
    rewrite filter_cons. rewrite Hf. simpl.
    case_bool_decide as Hb.
    + rewrite decide_True by (now rewrite Hb). reflexivity.
    + rewrite decide_False; [reflexivity |]. intros Heq. apply Hb. congruence.
Qed.

Lemma comprehension_if_index_name name nodes kept n :
  comprehension_if (named name) nodes = Return kept ->
  n ∈ kept -> index_name n = Return name.
Proof.
  intros H Hin. rewrite (comprehension_if_named _ _ _ H) in Hin.
  apply list_elem_of_filter in Hin as [Hn _].
  unfold index_name. destruct (find "name" n) as [e|]; [| discriminate].
  simpl in Hn. inversion Hn as [Ht]. now rewrite Ht.
Qed.

(** The scoped branch of [get_store], once the workspace is resolved, both
    listings are fetched and the entries named [name] are picked. *)
Lemma get_store_in_cases name workspace (w0 w w1 w2 : World Net) ws
    ds_list cs_list datastores coveragestores :
  resolve_workspace workspace w0 = (Return (Some ws), w) ->
  get_xml (datastore_url ws) w = (Return ds_list, w1) ->
  get_xml (coveragestore_url ws) w1 = (Return cs_list, w2) ->
  comprehension_if (named name) (findall "dataStore" ds_list) = Return datastores ->
  comprehension_if (named name) (findall "coverageStore" cs_list)
  = Return coveragestores ->
  get_store_in name workspace w0 =
  (match datastores, coveragestores with
   | [_], [] => Return (Some (mkStore DataStoreKind ws name))
   | [], [_] => Return (Some (mkStore CoverageStoreKind ws name))
   | [], [] =>
     Raise (FailedRequestError
              ("No store found in " +:+ str_workspace ws +:+ " named: " +:+ name))
   | _, _ =>
     Raise (AmbiguousRequestError
              (Some (str_workspace ws +:+ " and name: " +:+ name +:+
                     " do not uniquely identify a layer")))
   end, w2).
Proof.
  intros Hr Hd Hc Hds Hcs. unfold get_store_in.
  rewrite (bind_return _ _ _ _ _ Hr), (bind_return _ _ _ _ _ Hd),
    (bind_return _ _ _ _ _ Hc).
  unfold bind at 1, lift at 1. rewrite Hds.
  unfold bind at 1, lift at 1. rewrite Hcs.
  destruct datastores as [|d [|d' ds]]; destruct coveragestores as [|c [|c' cs]];
    try reflexivity.
  - unfold bind, lift, coveragestore_from_index.
    rewrite (comprehension_if_index_name _ _ _ c Hcs) by set_solver.
    reflexivity.
  - unfold bind, lift, datastore_from_index.
    rewrite (comprehension_if_index_name _ _ _ d Hds) by set_solver.
    reflexivity.
Qed.

(** C2. [get_store] with the workspace given: once both listings of the
    workspace are fetched, the outcome follows the counts of the entries
    named [name]. One in the data-store listing and none in the other gives a
    data-store handle; none and one gives a coverage-store handle; none in
    both raises "not found"; more than one in all, one in each included,
    raises "ambiguous". *)
Theorem get_store_scoped_classifies name workspace (w0 w w1 w2 : World Net) ws
    ds_list cs_list datastores coveragestores :
  resolve_workspace workspace w0 = (Return (Some ws), w) ->
  get_xml (datastore_url ws) w = (Return ds_list, w1) ->
  get_xml (coveragestore_url ws) w1 = (Return cs_list, w2) ->
  comprehension_if (named name) (findall "dataStore" ds_list) = Return datastores ->
  comprehension_if (named name) (findall "coverageStore" cs_list)
  = Return coveragestores ->
  let ds_len := length datastores in
  let cs_len := length coveragestores in
  let result := get_store name (Some workspace) w0 in
  snd result = w2 /\
  (ds_len = 1%nat -> cs_len = 0%nat ->
   fst result = Return (Some (mkStore DataStoreKind ws name))) /\
  (ds_len = 0%nat -> cs_len = 1%nat ->
   fst result = Return (Some (mkStore CoverageStoreKind ws name))) /\
  (ds_len = 0%nat -> cs_len = 0%nat ->
   exists detail, fst result = Raise (FailedRequestError detail)) /\
  ((1 < ds_len + cs_len)%nat ->
   exists msg, fst result = Raise (AmbiguousRequestError msg)) /\
  ((1 <= ds_len)%nat -> (1 <= cs_len)%nat ->
   exists msg, fst result = Raise (AmbiguousRequestError msg)).
Proof.
  intros Hr Hd Hc Hds Hcs. cbv zeta. unfold get_store.
  rewrite (get_store_in_cases _ _ _ _ _ _ _ _ _ _ _ Hr Hd Hc Hds Hcs).
  destruct datastores as [|d [|d' ds]]; destruct coveragestores as [|c [|c' cs]];
    simpl; repeat split; intros; try lia; try reflexivity; eauto.
Qed.

(** C1. A lookup by name within one scope resolves to exactly one entity. A
    workspace within the catalogue and a resource within a store: no entry
    with the name gives [None], one gives that entry, several raise
    "ambiguous". A store within a workspace: none in the two listings raises
    "not found", one is returned, several raise "ambiguous". A style within a
    workspace is one GET of the style's own location: it gives the style or
    [None], and never picks among several. *)
Theorem scoped_lookups_resolve_exactly_one name :
  (forall (w w' : World Net) workspaces,
      get_workspaces w = (Return workspaces, w') ->
      let candidates := filter (fun x => workspace_name x = name) workspaces in
      (candidates = [] -> get_workspace name w = (Return None, w')) /\
      (forall x, candidates = [x] -> get_workspace name w = (Return (Some x), w')) /\
      ((1 < length candidates)%nat ->
       get_workspace name w = (Raise (AmbiguousRequestError None), w'))) /\
  (forall store (w w' : World Net) resources,
      get_resources (Some store) None w = (Return resources, w') ->
      let candidates := filter (fun x => resource_name x = name) resources in
      (candidates = [] ->
       forall workspace,
         get_resource name (Some store) workspace w = (Return None, w')) /\
      (forall x, candidates = [x] ->
       forall workspace,
         get_resource name (Some store) workspace w = (Return (Some x), w')) /\
      ((1 < length candidates)%nat ->
       forall workspace,
         get_resource name (Some store) workspace w
         = (Raise (AmbiguousRequestError None), w'))) /\
  (forall workspace (w0 w w1 w2 : World Net) ws ds_list cs_list
          datastores coveragestores,
      resolve_workspace workspace w0 = (Return (Some ws), w) ->
      get_xml (datastore_url ws) w = (Return ds_list, w1) ->
      get_xml (coveragestore_url ws) w1 = (Return cs_list, w2) ->
      comprehension_if (named name) (findall "dataStore" ds_list)
      = Return datastores ->
      comprehension_if (named name) (findall "coverageStore" cs_list)
      = Return coveragestores ->
      let candidates := datastores ++ coveragestores in
      let result := get_store name (Some workspace) w0 in
      (candidates = [] ->
       exists detail, result = (Raise (FailedRequestError detail), w2)) /\
      (forall x, candidates = [x] ->
       exists kind, result = (Return (Some (mkStore kind ws name)), w2)) /\
      ((1 < length candidates)%nat ->
       exists msg, result = (Raise (AmbiguousRequestError msg), w2))) /\
  (forall ws (w : World Net),
      let style_url :=
        url (service_url (catalog w))
            ["workspaces"; workspace_name ws; "styles"; name +:+ ".xml"] [] in
      (forall dom w', get_xml style_url w = (Return dom, w') ->
       get_style name (Some ws) w = (Return (Some (mkStyle name (Some ws))), w')) /\
      (forall e w', get_xml style_url w = (Raise e, w') ->
       get_style name (Some ws) w = (Return None, w'))).
Proof.
  repeat apply conj.
  - intros w w' workspaces H. cbv zeta. unfold get_workspace.
    rewrite (bind_return _ _ _ _ _ H).
    destruct (filter _ workspaces) as [|x [|y l]]; simpl;
      repeat split; intros; try discriminate; try lia; try reflexivity.
    now simplify_eq.
  - intros store w w' resources H. cbv zeta. unfold get_resource, get_resource_in_store.
    rewrite (bind_return _ _ _ _ _ H).
    destruct (filter _ resources) as [|x [|y l]]; simpl;
      repeat split; intros; try discriminate; try lia; try reflexivity.
    now simplify_eq.
  - intros workspace w0 w w1 w2 ws ds_list cs_list datastores coveragestores
      Hr Hd Hc Hds Hcs. cbv zeta. unfold get_store.
    rewrite (get_store_in_cases _ _ _ _ _ _ _ _ _ _ _ Hr Hd Hc Hds Hcs).
    destruct datastores as [|d [|d' ds]]; destruct coveragestores as [|c [|c' cs]];
      simpl; repeat split; intros; try discriminate; try lia; eauto.
  - intros ws w. cbv zeta.
    split; [intros dom w' H | intros e w' H];
      unfold get_style, get_style_in, bind, self_service_url, try_except, ret;
      simpl; unfold bind; now rewrite H.
Qed.

(** ** Lookups over several scopes *)



(** One turn of the loop of the unscoped [get_store]: whatever the scoped
    lookup raises is dropped. *)
Lemma get_store_step_unfold name ws store (w : World Net) :
  get_store_step name ws store w =
  match get_store_in name (WorkspaceByHandle ws) w with
  | (Return (Some f), w') =>
    (match store with
     | Some _ => Raise (AmbiguousRequestError
                          (Some ("Multiple stores found named: " +:+ name)))
     | None => Return (Some f)
     end, w')
  | (_, w') => (Return store, w')
  end.
Proof.
  unfold get_store_step, bind, try_except, ret, raise.
  destruct (get_store_in name (WorkspaceByHandle ws) w) as [[e|[f|]] w'];
    try reflexivity.
  now destruct store.
Qed.

Lemma get_store_loop name l store (w : World Net) :
  fst (for_each (get_store_step name) l store w) =
  match store, stores_found name l w with
  | None, [] => Return None
  | None, [s] => Return (Some s)
  | Some s, [] => Return (Some s)
  | _, _ => Raise (AmbiguousRequestError
                     (Some ("Multiple stores found named: " +:+ name)))
  end.
Proof.
  revert store w. induction l as [|ws l IH]; intros store w; simpl.
  - now destruct store.
  - unfold bind. rewrite get_store_step_unfold.
    destruct (get_store_in name (WorkspaceByHandle ws) w) as [[e|[f|]] w'].
    + rewrite IH. reflexivity.
    + destruct store as [s|]; simpl.
      * now destruct (stores_found name l w').
      * rewrite IH. now destruct (stores_found name l w') as [|? [|? ?]].
    + rewrite IH. reflexivity.
Qed.

(** The loop over a list in two parts: the second part starts from the state
    and the world the first part left, and is not run when the first part
    raises. *)
Lemma for_each_app {A S} (body : A -> S -> Py S) before after s
    (w : World Net) :
  for_each body (before ++ after) s w =
  match for_each body before s w with
  | (Return s', w') => for_each body after s' w'
  | (Raise e, w') => (Raise e, w')
  end.
Proof.
  revert s w. induction before as [|x before IH]; intros s w; simpl.
  - reflexivity.
  - unfold bind. destruct (body x s w) as [[e|s'] w']; [reflexivity | apply IH].
Qed.

(** The unscoped [get_store]: the workspaces are visited in the order of the
    listing, and a lookup that raises anything at all counts as no store
    there. When no store is found the call raises "not found", and one
    store found is returned. The second store found raises "ambiguous" on
    the spot: the call ends in the world that second lookup left, whatever
    workspaces follow, so these are not visited. *)
Theorem get_store_unscoped name (w w1 : World Net) workspaces :
  get_workspaces w = (Return workspaces, w1) ->
  fst (get_store name None w) =
  match stores_found name workspaces w1 with
  | [] => Raise (FailedRequestError ("No store found named: " +:+ name))
  | [s] => Return (Some s)
  | _ => Raise (AmbiguousRequestError
                  (Some ("Multiple stores found named: " +:+ name)))
  end /\
  (forall before ws after s1 s2 (w2 w3 : World Net),
      workspaces = before ++ ws :: after ->
      for_each (get_store_step name) before None w1 = (Return (Some s1), w2) ->
      get_store_in name (WorkspaceByHandle ws) w2 = (Return (Some s2), w3) ->
      get_store name None w =
      (Raise (AmbiguousRequestError
                (Some ("Multiple stores found named: " +:+ name))), w3)).
Proof.
  intros H. split.
  - unfold get_store. rewrite (bind_return _ _ _ _ _ H).
    pose proof (get_store_loop name workspaces None w1) as L.
    unfold bind.
    destruct (for_each (get_store_step name) workspaces None w1)
      as [[e|[s|]] w2]; simpl in L |- *.
    + rewrite L. now destruct (stores_found name workspaces w1) as [|? [|? ?]].
    + rewrite L. now destruct (stores_found name workspaces w1) as [|? [|? ?]].
    + now destruct (stores_found name workspaces w1) as [|? [|? ?]].
  - intros before ws after s1 s2 w2 w3 -> Hb Hs. unfold get_store.
    rewrite (bind_return _ _ _ _ _ H). unfold bind at 1.
    rewrite for_each_app, Hb. simpl. unfold bind at 1.
    now rewrite get_store_step_unfold, Hs.
Qed.


(** ** Creating stores and feature types *)

(** *** What a store lookup sends *)

Lemma only_gets_refl (w : World Net) : only_gets w w.
Proof. exists []. split; [now rewrite app_nil_r | constructor]. Qed.

Lemma only_gets_trans (w1 w2 w3 : World Net) :
  only_gets w1 w2 -> only_gets w2 w3 -> only_gets w1 w3.
Proof.
  intros (a & Ha & Fa) (b & Hb & Fb). exists (a ++ b). split.
  - now rewrite Hb, Ha, app_assoc.
  - apply Forall_app. now split.
Qed.

Lemma bind_only_gets {A B} (m : Py A) (k : A -> Py B) (w : World Net) :
  only_gets w (snd (m w)) ->
  (forall a w', only_gets w' (snd (k a w'))) ->
  only_gets w (snd (bind m k w)).
Proof.
  intros Hm Hk. unfold bind. destruct (m w) as [[e|a] w']; simpl in *.
  - exact Hm.
  - exact (only_gets_trans _ _ _ Hm (Hk a w')).
Qed.

Lemma get_xml_only_gets rest_url (w : World Net) :
  only_gets w (snd (get_xml rest_url w)).
Proof.
  assert (Hsent : forall w' : World Net,
             sent w' = sent w ++ [get_request rest_url] -> only_gets w w').
  { intros w' H. exists [get_request rest_url]. split; [exact H |].
    now repeat constructor. }
  unfold get_xml, bind, cache_get, is_valid, now, ret, request, cache_set,
    raise. simpl.
  destruct (_cache (catalog w) !! rest_url) as [[stamp raw]|]; simpl.
  - destruct (datetime_now (net w) - stamp <? five_seconds).
    + rewrite parse_or_raise_world. apply only_gets_refl.
    + destruct (http_request _ (net w)) as [response n']. simpl.
      destruct (status response =? 200); simpl;
        [rewrite parse_or_raise_world |]; now apply Hsent.
  - destruct (http_request _ (net w)) as [response n']. simpl.
    destruct (status response =? 200); simpl;
      [rewrite parse_or_raise_world |]; now apply Hsent.
Qed.

Lemma get_workspace_only_gets name (w : World Net) :
  only_gets w (snd (get_workspace name w)).
Proof.
  unfold get_workspace, get_workspaces.
  apply bind_only_gets; [| intros workspaces w'].
  - apply bind_only_gets; [apply only_gets_refl | intros base w'].
    apply bind_only_gets; [apply get_xml_only_gets | intros description w2].
    rewrite mapM_lift_world. apply only_gets_refl.
  - destruct (filter _ workspaces) as [|x [|y rest]]; apply only_gets_refl.
Qed.

(** The scoped store lookup calls the transport with GET only. *)
Lemma get_store_in_only_gets name workspace (w : World Net) :
  only_gets w (snd (get_store_in name workspace w)).
Proof.
  unfold get_store_in. apply bind_only_gets; [| intros [ws|] w'].
  - destruct workspace; [apply get_workspace_only_gets | apply only_gets_refl].
  - apply bind_only_gets; [apply get_xml_only_gets | intros ds_list w1].
    apply bind_only_gets; [apply get_xml_only_gets | intros cs_list w2].
    apply bind_only_gets; [apply only_gets_refl | intros datastores w3].
    apply bind_only_gets; [apply only_gets_refl | intros coveragestores w4].
    destruct datastores as [|d [|d' ds]];
      destruct coveragestores as [|c [|c' cs]];
      try apply only_gets_refl;
      (apply bind_only_gets; [apply only_gets_refl | intros; apply only_gets_refl]).
  - apply only_gets_refl.
Qed.

(** The comparison of [create_pg_featurestore], key by key. *)
Lemma same_connection_cases params host port database user (w : World Net) :
  same_connection params host port database user w =
  (match params !! "port" with
   | None => Raise (KeyError "port")
   | Some p =>
     if bool_decide (p = str_port port) then
       match params !! "database" with
       | None => Raise (KeyError "database")
       | Some d =>
         if bool_decide (d = database) then
           match params !! "host" with
           | None => Raise (KeyError "host")
           | Some h =>
             if bool_decide (h = host) then
               match params !! "user" with
               | None => Raise (KeyError "user")
               | Some u => Return (bool_decide (Some u = user))
               end
             else Return false
           end
         else Return false
       end
     else Return false
   end, w).
Proof.
  unfold same_connection, bind, lift, getitem, ret.
  destruct (params !! "port") as [p|]; [| reflexivity].
  destruct (bool_decide (p = str_port port)); simpl; [| reflexivity].
  destruct (params !! "database") as [d|]; [| reflexivity].
  destruct (bool_decide (d = database)); simpl; [| reflexivity].
  destruct (params !! "host") as [h|]; [| reflexivity].
  destruct (bool_decide (h = host)); simpl; [| reflexivity].
  now destruct (params !! "user") as [u|].
Qed.

(** C6, as amended. [create_pg_featurestore] with [overwrite] set, over an
    existing store of the same name, user and password not both empty. The
    store is looked up first, which calls the transport with GET only, and
    its connection parameters are read. The values asked for are then
    compared with the store's, in the order port, database, host, user and
    up to the first key that is absent or holds another value. All four the
    same: the call returns in the world the look-up and the reading left, so
    nothing is sent after them and the cache is not cleared. A key absent:
    [KeyError], in that same world. A value that differs: with a user given,
    the next request sent is a PUT of the new definition to
    [workspaces/<workspace>/datastores/<name>] and the cache is cleared;
    with no user given, the call raises "Undefined user" in that same world
    and sends no PUT. *)
Theorem create_pg_featurestore_overwrite name workspace host port database
    schema user passwd (w w1 w2 : World Net) st params :
  let target := match workspace with
                | None => WorkspaceByHandle get_default_workspace
                | Some a => a
                end in
  let result := create_pg_featurestore name workspace true host port database
                                       schema user passwd w in
  let compared := [("port", Some (str_port port)); ("database", Some database);
                   ("host", Some host); ("user", user)] in
  let same (key : string) (value : option string) :=
    exists x, params !! key = Some x /\ value = Some x in
  let put given := mkRequest (url (service_url (catalog w2))
                                  ["workspaces"; util_name_workspace target;
                                   "datastores"; name] [])
                             PUT
                             (Some (pg_datastore_xml name host port database
                                                     schema given passwd))
                             [("Content-type", "text/xml")] in
  ~ (user = Some "" /\ passwd = "") ->
  get_store name (Some target) w = (Return (Some st), w1) ->
  connection_parameters st w1 = (Return params, w2) ->
  only_gets w w1 /\
  ((forall key value, In (key, value) compared -> same key value) ->
   result = (Return tt, w2)) /\
  (forall before key value after,
      compared = before ++ (key, value) :: after ->
      (forall k v, In (k, v) before -> same k v) ->
      (params !! key = None -> result = (Raise (KeyError key), w2)) /\
      (forall x, params !! key = Some x -> value <> Some x ->
       match user with
       | Some given =>
         sent (snd result) = sent w2 ++ [put given] /\
         _cache (catalog (snd result)) = ∅
       | None => result = (Raise (PyException "Undefined user" None), w2)
       end)).
Proof.
  cbv zeta. intros Hne Hs Hc.
  assert (Hguard : bool_decide (user = Some "") && bool_decide (passwd = "")
                   = false).
  { apply andb_false_iff.
    destruct (decide (user = Some "")) as [Hu|Hu].
    - right. apply bool_decide_eq_false. tauto.
    - left. now apply bool_decide_eq_false. }
  assert (E : create_pg_featurestore name workspace true host port database
                                     schema user passwd w =
              match fst (same_connection params host port database user w2) with
              | Return true => (Return tt, w2)
              | Return false =>
                create_pg_featurestore_send name
                  (match workspace with
                   | None => WorkspaceByHandle get_default_workspace
                   | Some a => a
                   end) (Some st) host port database schema user passwd w2
              | Raise e => (Raise e, w2)
              end).
  { unfold create_pg_featurestore. rewrite Hguard.
    unfold bind at 1. unfold try_except_FailedRequestError. rewrite Hs.
    rewrite (bind_return _ _ _ _ _ Hc). unfold bind at 1.
    rewrite same_connection_cases. simpl.
    destruct (params !! "port") as [p|]; [| reflexivity].
    destruct (bool_decide (p = str_port port)); [| reflexivity].
    destruct (params !! "database") as [d|]; [| reflexivity].
    destruct (bool_decide (d = database)); [| reflexivity].
    destruct (params !! "host") as [h|]; [| reflexivity].
    destruct (bool_decide (h = host)); [| reflexivity].
    destruct (params !! "user") as [u|]; [| reflexivity].
    now destruct (bool_decide (Some u = user)). }
  assert (Hsend : match user with
                  | Some given =>
                    sent (snd (create_pg_featurestore_send name
                      (match workspace with
                       | None => WorkspaceByHandle get_default_workspace
                       | Some a => a
                       end) (Some st) host port database schema user passwd w2))
                    = sent w2 ++
                      [mkRequest (url (service_url (catalog w2))
                                      ["workspaces";
                                       util_name_workspace
                                         (match workspace with
                                          | None =>
                                            WorkspaceByHandle get_default_workspace
                                          | Some a => a
                                          end);
                                       "datastores"; name] [])
                                 PUT
                                 (Some (pg_datastore_xml name host port database
                                                         schema given passwd))
                                 [("Content-type", "text/xml")]] /\
                    _cache (catalog (snd (create_pg_featurestore_send name
                      (match workspace with
                       | None => WorkspaceByHandle get_default_workspace
                       | Some a => a
                       end) (Some st) host port database schema user passwd w2)))
                    = ∅
                  | None =>
                    create_pg_featurestore_send name
                      (match workspace with
                       | None => WorkspaceByHandle get_default_workspace
                       | Some a => a
                       end) (Some st) host port database schema user passwd w2
                    = (Raise (PyException "Undefined user" None), w2)
                  end).
  { destruct user as [given|]; [| reflexivity].
    unfold create_pg_featurestore_send, bind, self_service_url, request,
      cache_clear, ret, raise. simpl.
    destruct (http_request _ (net w2)) as [response n']. simpl.
    now destruct (negb (status response =? 201) && negb (status response =? 200)). }
  rewrite E, same_connection_cases. simpl. clear E.
  split; [| split].
  - unfold get_store in Hs.
    pose proof (get_store_in_only_gets name
                  (match workspace with
                   | None => WorkspaceByHandle get_default_workspace
                   | Some a => a
                   end) w) as G.
    now rewrite Hs in G.
  - intros Hall.
    destruct (Hall "port" (Some (str_port port))) as (p & -> & Ep);
      [simpl; tauto |].
    destruct (Hall "database" (Some database)) as (d & -> & Ed);
      [simpl; tauto |].
    destruct (Hall "host" (Some host)) as (h & -> & Eh); [simpl; tauto |].
    destruct (Hall "user" user) as (u & -> & Eu); [simpl; tauto |].
    simplify_eq. now rewrite !bool_decide_eq_true_2 by reflexivity.
  - intros before key value after Hcmp Hbefore.
    assert (Hsame : forall k v, In (k, v) before ->
                    match params !! k with
                    | Some x => v = Some x
                    | None => False
                    end).
    { intros k v Hin. destruct (Hbefore k v Hin) as (x & -> & ->). reflexivity. }
    clear Hbefore.
    destruct before as [|[k1 v1] [|[k2 v2] [|[k3 v3] [|[k4 v4] more]]]];
      simpl in Hcmp; simplify_eq.
    + split.
      * now intros ->.
      * intros x -> Hx.
        rewrite bool_decide_eq_false_2 by congruence. exact Hsend.
    + pose proof (Hsame _ _ (or_introl eq_refl)) as H1.
      destruct (params !! "port") as [p|]; [| contradiction]. simplify_eq.
      rewrite bool_decide_eq_true_2 by reflexivity. split.
      * now intros ->.
      * intros x -> Hx.
        rewrite bool_decide_eq_false_2 by congruence. exact Hsend.
    + pose proof (Hsame _ _ (or_introl eq_refl)) as H1.
      pose proof (Hsame _ _ (or_intror (or_introl eq_refl))) as H2.
      destruct (params !! "port") as [p|]; [| contradiction].
      destruct (params !! "database") as [d|]; [| contradiction]. simplify_eq.
      rewrite !bool_decide_eq_true_2 by reflexivity. split.
      * now intros ->.
      * intros x -> Hx.
        rewrite bool_decide_eq_false_2 by congruence. exact Hsend.
    + pose proof (Hsame _ _ (or_introl eq_refl)) as H1.
      pose proof (Hsame _ _ (or_intror (or_introl eq_refl))) as H2.
      pose proof (Hsame _ _ (or_intror (or_intror (or_introl eq_refl)))) as H3.
      destruct (params !! "port") as [p|]; [| contradiction].
      destruct (params !! "database") as [d|]; [| contradiction].
      destruct (params !! "host") as [h|]; [| contradiction]. simplify_eq.
      rewrite !bool_decide_eq_true_2 by reflexivity. split.
      * now intros ->.
      * intros x -> Hx.
        rewrite bool_decide_eq_false_2 by congruence. exact Hsend.
    + destruct more; discriminate.
Qed.

(** [create_pg_featuretype] sends its POST and never touches the catalogue
    object: the cache is what it was, whatever the answer. *)
Lemma create_pg_featuretype_keeps_catalog name store workspace srs
    (w : World Net) :
  catalog (snd (create_pg_featuretype name store workspace srs w)) = catalog w.
Proof.
  unfold create_pg_featuretype, bind, self_service_url, request, ret, raise.
  simpl. destruct (http_request _ (net w)) as [response n']. simpl.
  now destruct (negb (status response =? 201) && negb (status response =? 200)).
Qed.

(** ** The cache policy, call by call *)

(** A GET whose cache entry is younger than five seconds is answered from
    the entry: the world is untouched (nothing is sent, the entry keeps its
    time stamp) and the result is the parse of the cached text. *)
Theorem get_xml_served_from_cache rest_url (w : World Net) stamp raw_text :
  _cache (catalog w) !! rest_url = Some (stamp, raw_text) ->
  datetime_now (net w) - stamp < five_seconds ->
  snd (get_xml rest_url w) = w /\
  fst (get_xml rest_url w) =
    match XML raw_text with
    | Some dom => Return dom
    | None => Raise (PyException (non_xml_message rest_url raw_text)
                                 (Some ExpatError))
    end.
Proof.
  intros Hc Ht. rewrite (get_xml_hit _ _ _ _ Hc Ht), parse_or_raise_unfold.
  now split.
Qed.

(** A GET with no cache entry, or with one that is five seconds old or
    older, goes to the transport exactly once; an answer with status 200
    replaces the entry, stamped with the time after the answer. *)
Theorem get_xml_fetches_when_stale rest_url (w : World Net) :
  (forall stamp raw_text,
      _cache (catalog w) !! rest_url = Some (stamp, raw_text) ->
      five_seconds <= datetime_now (net w) - stamp) ->
  let response := fst (http_request (get_request rest_url) (net w)) in
  let w' := snd (get_xml rest_url w) in
  sent w' = sent w ++ [get_request rest_url] /\
  (status response = 200 ->
   _cache (catalog w') !! rest_url
   = Some (datetime_now (net (after_get rest_url w)), content response)).
Proof.
  intros Hold. cbv zeta. rewrite (get_xml_miss _ _ Hold). cbv zeta.
  destruct (Z.eqb_spec (status (fst (http_request (get_request rest_url) (net w))))
                       200) as [E|E].
  - rewrite parse_or_raise_world. simpl. split; [reflexivity |].
    intros _. now rewrite lookup_insert_eq.
  - simpl. split; [reflexivity | intros; contradiction].
Qed.

(** [delete], [save] and [reload] leave an empty cache behind, whatever the
    object and whatever the answer, a raised failure included. *)
Theorem delete_save_reload_clear_cache config_object purge recurse
    (w : World Net) :
  _cache (catalog (snd (delete config_object purge recurse w))) = ∅ /\
  _cache (catalog (snd (save config_object w))) = ∅ /\
  _cache (catalog (snd (reload w))) = ∅.
Proof.
  split; [| split].
  - pose proof (delete_unfold config_object purge recurse w) as E.
    cbv zeta in E. now rewrite E.
  - pose proof (save_unfold config_object w) as E.
    cbv zeta in E. now rewrite E.
  - unfold reload, bind, self_service_url, request, cache_clear, ret. simpl.
    destruct (http_request _ (net w)) as [response n']. reflexivity.
Qed.

(** ** Strings, construction and [gs_base_url] *)

Lemma endswith_app prefix suffix : endswith (prefix +:+ suffix) suffix = true.
Proof.
  induction prefix as [|c prefix IH].
  - change ("" +:+ suffix) with suffix.
    destruct suffix as [|a suffix]; [reflexivity |].
    change (endswith (String a suffix) (String a suffix))
      with (if String.eqb (String a suffix) (String a suffix) then true
            else endswith suffix (String a suffix)).
    now rewrite String.eqb_refl.
  - change (endswith (String c prefix +:+ suffix) suffix)
      with (if String.eqb (String c (prefix +:+ suffix)) suffix then true
            else endswith (prefix +:+ suffix) suffix).
    rewrite IH. now destruct (String.eqb _ suffix).
Qed.

Lemma endswith_split s suffix :
  endswith s suffix = true -> exists prefix, s = prefix +:+ suffix.
Proof.
  induction s as [|c s IH].
  - destruct suffix; [now exists "" | discriminate].
  - change (endswith (String c s) suffix)
      with (if String.eqb (String c s) suffix then true
            else endswith s suffix).
    destruct (String.eqb_spec (String c s) suffix) as [<-|].
    + now exists "".
    + intros H. destruct (IH H) as [prefix ->]. now exists (String c prefix).
Qed.

Lemma rstrip_all chars t :
  Forall (fun c => c ∈ chars) (Stdlib.Strings.String.list_ascii_of_string t) ->
  rstrip chars t = "".
Proof.
  induction t as [|c t IH]; simpl; [reflexivity |].
  intros H. inversion H as [|? ? Hc Ht]; subst.
  rewrite (IH Ht). now rewrite bool_decide_eq_true_2.
Qed.

Lemma rstrip_keep chars prefix c t :
  c ∉ chars -> rstrip chars t = "" ->
  rstrip chars (prefix +:+ String c t) = prefix +:+ String c "".
Proof.
  intros Hc Ht. induction prefix as [|a prefix IH]; simpl.
  - rewrite Ht. now rewrite bool_decide_eq_false_2.
  - rewrite IH. now destruct prefix.
Qed.

Lemma rstrip_app_all chars s t :
  rstrip chars t = "" -> rstrip chars (s +:+ t) = rstrip chars s.
Proof.
  intros Ht. induction s as [|a s IH]; [exact Ht |].
  change (rstrip chars (String a s +:+ t))
    with (match rstrip chars (s +:+ t) with
          | EmptyString => if bool_decide (a ∈ chars) then EmptyString
                           else String a EmptyString
          | r => String a r
          end).
  now rewrite IH.
Qed.

Lemma rstrip_fixed chars s :
  (forall c, c ∈ chars -> endswith s (String c "") = false) ->
  rstrip chars s = s.
Proof.
  induction s as [|a s IH]; intros H; [reflexivity |].
  assert (Hs : forall c, c ∈ chars -> endswith s (String c "") = false).
  { intros c Hc. specialize (H c Hc).
    change (endswith (String a s) (String c ""))
      with (if String.eqb (String a s) (String c "") then true
            else endswith s (String c "")) in H.
    now destruct (String.eqb (String a s) (String c "")). }
  simpl. rewrite (IH Hs). destruct s as [|b s]; [| reflexivity].
  case_bool_decide as Ha; [| reflexivity].
  specialize (H a Ha). simpl in H. now rewrite Ascii.eqb_refl in H.
Qed.

(** What [rstrip] leaves does not end in a character of the set. *)
Lemma rstrip_endswith chars s c :
  c ∈ chars -> endswith (rstrip chars s) (String c "") = false.
Proof.
  intros Hc. induction s as [|a s IH]; simpl; [reflexivity |].
  destruct (rstrip chars s) as [|b r] eqn:Hr.
  - case_bool_decide as Ha; simpl; [reflexivity |].
    destruct (Ascii.eqb_spec a c) as [->|]; [contradiction | reflexivity].
  - change (endswith (String a (String b r)) (String c ""))
      with (if String.eqb (String a (String b r)) (String c "") then true
            else endswith (String b r) (String c "")).
    rewrite IH. simpl. destruct (Ascii.eqb a c); reflexivity.
Qed.

(** What [rstrip] removes is a run of characters of the set. *)
Lemma rstrip_split chars s :
  exists t, s = rstrip chars s +:+ t /\
            Forall (fun c => c ∈ chars)
                   (Stdlib.Strings.String.list_ascii_of_string t).
Proof.
  induction s as [|a s (t & Hs & Ht)]; simpl.
  - exists "". split; [reflexivity | constructor].
  - destruct (rstrip chars s) as [|b r] eqn:Hr.
    + case_bool_decide as Ha.
      * exists (String a t). simpl in Hs. subst s. split; [reflexivity |].
        simpl. now constructor.
      * exists t. simpl in *. now subst s.
    + exists t. split; [| exact Ht].
      change (String a s = String a (String b r +:+ t)). congruence.
Qed.

(** A catalogue as constructed: the cache is empty and the service URL does
    not end in a slash, so that the locations built as
    [service_url + "/..."] have one slash at the joint. A URL given without
    a final slash is kept as it is. *)
Theorem Catalog_init_no_final_slash url_given :
  _cache (Catalog_init url_given) = ∅ /\
  endswith (service_url (Catalog_init url_given)) "/" = false /\
  (endswith url_given "/" = false ->
   service_url (Catalog_init url_given) = url_given) /\
  (forall middle, endswith middle "/" = false ->
                  startswith middle "/" = false ->
   service_url (Catalog_init (middle +:+ "/")) = middle).
Proof.
  unfold Catalog_init. simpl. split; [reflexivity |]. split; [| split].
  - destruct (endswith url_given "/") eqn:E; simpl; [| exact E].
    apply rstrip_endswith. now apply (bool_decide_unpack _).
  - now intros ->.
  - intros middle Hend Hstart. rewrite endswith_app. unfold strip.
    destruct middle as [|a m]; [reflexivity |].
    assert (Hne : a ∉ Stdlib.Strings.String.list_ascii_of_string "/").
    { intros H. apply list_elem_of_singleton in H. subst a.
      simpl in Hstart. discriminate Hstart. }
    change (lstrip ?chars (String a m +:+ "/"))
      with (if bool_decide (a ∈ chars) then lstrip chars (m +:+ "/")
            else String a m +:+ "/").
    rewrite bool_decide_eq_false_2 by exact Hne.
    rewrite rstrip_app_all by reflexivity.
    apply rstrip_fixed. intros c Hc.
    apply list_elem_of_singleton in Hc. now subst c.
Qed.

(** [gs_base_url] strips a set of characters, not the word: from a service
    URL that ends in a slash followed by any run of the letters r, e, s, t
    (the usual [/rest] included) it leaves the URL up to and including that
    slash; and in general it leaves a prefix of the service URL that does
    not end in one of the four letters. *)
Theorem gs_base_url_strips_letters before tail cache :
  Forall (fun c => c ∈ Stdlib.Strings.String.list_ascii_of_string "rest")
         (Stdlib.Strings.String.list_ascii_of_string tail) ->
  gs_base_url (mkCatalog (before +:+ "/" +:+ tail) cache) = before +:+ "/" /\
  gs_base_url (mkCatalog (before +:+ "/rest") cache) = before +:+ "/" /\
  (forall c : Catalog,
      (exists removed, service_url c = gs_base_url c +:+ removed) /\
      endswith (gs_base_url c) "r" = false /\
      endswith (gs_base_url c) "e" = false /\
      endswith (gs_base_url c) "s" = false /\
      endswith (gs_base_url c) "t" = false).
Proof.
  intros Htail. unfold gs_base_url. simpl. repeat apply conj.
  - apply rstrip_keep; [| now apply rstrip_all].
    now apply (bool_decide_eq_false_1 _).
  - apply rstrip_keep; [| reflexivity].
    now apply (bool_decide_eq_false_1 _).
  - intros c. split;
      [| repeat split; apply rstrip_endswith; now apply (bool_decide_unpack _)].
    destruct (rstrip_split (Stdlib.Strings.String.list_ascii_of_string "rest")
                           (service_url c)) as (t & Ht & _).
    now exists t.
Qed.

(** ** Two calls in a row *)

Lemma bind_inv {A B} (m : Py A) (k : A -> Py B) (w w' : World Net) b :
  bind m k w = (Return b, w') ->
  exists a w1, m w = (Return a, w1) /\ k a w1 = (Return b, w').
Proof.
  unfold bind. destruct (m w) as [[e|a] w1]; [discriminate |]. eauto.
Qed.

Lemma get_xml_miss_empty rest_url (w : World Net) :
  _cache (catalog w) = ∅ ->
  get_xml rest_url w =
  let response := fst (http_request (get_request rest_url) (net w)) in
  let w1 := after_get rest_url w in
  if status response =? 200 then
    parse_or_raise rest_url (content response)
      (mkWorld (mkCatalog (service_url (catalog w))
                  (<[rest_url := (datetime_now (net w1), content response)]>
                     (_cache (catalog w))))
               (net w1) (sent w1))
  else (Raise (FailedRequestError (content response)), w1).
Proof.
  intros He. apply get_xml_miss. intros stamp raw H.
  rewrite He, lookup_empty in H. discriminate.
Qed.

Lemma get_xml_sent_after_clear rest_url (w : World Net) :
  _cache (catalog w) = ∅ ->
  sent (snd (get_xml rest_url w)) = sent w ++ [get_request rest_url].
Proof.
  intros He. rewrite (get_xml_miss_empty _ _ He). cbv zeta.
  destruct (status _ =? 200); [now rewrite parse_or_raise_world | reflexivity].
Qed.

(** A GET answered with status 200, repeated at once, is answered from the
    cache: the second call returns what the first returned and changes
    nothing, so it sends nothing. *)
Theorem get_xml_repeated rest_url (w : World Net) :
  status (fst (http_request (get_request rest_url) (net w))) = 200 ->
  get_xml rest_url (snd (get_xml rest_url w)) =
  (fst (get_xml rest_url w), snd (get_xml rest_url w)).
Proof.
  intros Hs.
  assert (Hcases :
    (exists stamp raw, _cache (catalog w) !! rest_url = Some (stamp, raw) /\
                       datetime_now (net w) - stamp < five_seconds) \/
    (forall stamp raw, _cache (catalog w) !! rest_url = Some (stamp, raw) ->
                       five_seconds <= datetime_now (net w) - stamp)).
  { destruct (_cache (catalog w) !! rest_url) as [[stamp raw]|] eqn:Hc.
    - destruct (Z.lt_ge_cases (datetime_now (net w) - stamp) five_seconds).
      + left. eauto.
      + right. intros s r E. now inversion E; subst.
    - right. intros s r E. discriminate. }
  destruct Hcases as [(stamp & raw & Hc & Ht) | Hold].
  - rewrite (get_xml_hit _ _ _ _ Hc Ht), parse_or_raise_unfold. simpl.
    now rewrite (get_xml_hit _ _ _ _ Hc Ht), parse_or_raise_unfold.
  - rewrite (get_xml_miss _ _ Hold). cbv zeta. rewrite Hs. simpl.
    rewrite parse_or_raise_unfold. simpl.
    erewrite get_xml_hit.
    + now rewrite parse_or_raise_unfold.
    + simpl. apply lookup_insert_eq.
    + simpl. unfold five_seconds. lia.
Qed.

(** After [delete], [save] or [reload], whatever the object and the answer,
    the next GET goes to the transport: the requests sent are the mutating
    one and then the GET. *)
Theorem get_xml_after_mutation_is_fresh config_object purge recurse rest_url
    (w : World Net) :
  sent (snd (get_xml rest_url (snd (delete config_object purge recurse w)))) =
    sent w ++ [mkRequest (delete_url (href config_object) purge recurse)
                         DELETE None xml_headers;
               get_request rest_url] /\
  sent (snd (get_xml rest_url (snd (save config_object w)))) =
    sent w ++ [mkRequest (href config_object) (save_method config_object)
                         (Some (message config_object)) xml_headers;
               get_request rest_url] /\
  sent (snd (get_xml rest_url (snd (reload w)))) =
    sent w ++ [mkRequest (url (service_url (catalog w)) ["reload"] []) POST
                         None [];
               get_request rest_url].
Proof.
  split; [| split].
  - pose proof (delete_unfold config_object purge recurse w) as E.
    cbv zeta in E. rewrite E. simpl.
    rewrite get_xml_sent_after_clear by reflexivity. simpl.
    now rewrite <- app_assoc.
  - pose proof (save_unfold config_object w) as E.
    cbv zeta in E. rewrite E. simpl.
    rewrite get_xml_sent_after_clear by reflexivity. simpl.
    now rewrite <- app_assoc.
  - assert (E : reload w =
      (Return (fst (http_request
                      (mkRequest (url (service_url (catalog w)) ["reload"] [])
                                 POST None []) (net w))),
       mkWorld (mkCatalog (service_url (catalog w)) ∅)
               (snd (http_request
                       (mkRequest (url (service_url (catalog w)) ["reload"] [])
                                  POST None []) (net w)))
               (sent w ++ [mkRequest (url (service_url (catalog w)) ["reload"] [])
                                     POST None []]))).
    { unfold reload, bind, self_service_url, request, cache_clear, ret. simpl.
      now destruct (http_request _ (net w)). }
    rewrite E. simpl.
    rewrite get_xml_sent_after_clear by reflexivity. simpl.
    now rewrite <- app_assoc.
Qed.

(** [about] goes straight to the transport: it sends one GET whatever the
    cache holds, leaves the catalogue object as it was, and never raises; it
    returns the body on status 200 and a fixed sentence otherwise. *)
Lemma about_bypasses_cache (w : World Net) :
  let r := get_request (service_url (catalog w) +:+ "/about/version.html") in
  let response := fst (http_request r (net w)) in
  about w =
  (Return (if status response =? 200 then content response
           else "Cannot get information about catalog." +:+ LF),
   after_request r w).
Proof.
  cbv zeta. unfold about, bind, self_service_url, request, ret, after_request,
    get_request. simpl.
  destruct (http_request _ (net w)) as [response n']. simpl.
  now destruct (status response =? 200).
Qed.

(** ** [get_store] against [get_stores] *)

Lemma mapM_lift_inv {A B} (f : A -> Outcome B) l (w w' : World Net) ys :
  mapM (fun x => lift (f x)) l w = (Return ys, w') ->
  w' = w /\ Forall2 (fun x y => f x = Return y) l ys.
Proof.
  revert ys. induction l as [|x l IH]; intros ys H; simpl in H.
  - inversion H. split; [reflexivity | constructor].
  - unfold bind at 1, lift at 1 in H.
    destruct (f x) as [e|y] eqn:Hx; [discriminate |].
    unfold bind at 1 in H.
    destruct (mapM (fun x => lift (f x)) l w) as [[e|ys'] w1] eqn:Hl;
      [discriminate |].
    inversion H; subst. destruct (IH ys' eq_refl) as [-> HF].
    split; [reflexivity | now constructor].
Qed.

Lemma index_name_named name n s :
  index_name n = Return s -> named name n = Return (bool_decide (s = name)).
Proof.
  unfold index_name, named. destruct (find "name" n) as [e|]; [| discriminate].
  destruct (text_of e) as [t|]; [| discriminate].
  intros H. inversion H; subst. f_equal.
  apply bool_decide_ext. split; congruence.
Qed.

(** Over a listing whose entries all give a handle, the entries picked by
    name are as many as the handles of that name. *)
Lemma comprehension_if_handles kind ws name nodes stores :
  Forall2 (fun n s => match index_name n with
                      | Raise e => Raise e
                      | Return x => Return (mkStore kind ws x)
                      end = Return s) nodes stores ->
  exists kept,
    comprehension_if (named name) nodes = Return kept /\
    length kept = length (filter (fun s => store_name s = name) stores) /\
    Forall (fun s => s = mkStore kind ws (store_name s)) stores.
Proof.
  induction 1 as [|n s nodes stores Hn _ (kept & Hk & Hlen & Hall)].
  - exists []. repeat split; constructor.
  - destruct (index_name n) as [e|x] eqn:Hx; [discriminate |].
    inversion Hn; subst; clear Hn. simpl.
    rewrite (index_name_named name _ _ Hx), Hk, filter_cons. simpl.
    eexists. split; [reflexivity |]. split; [| now constructor].
    case_bool_decide as Hb.
    + rewrite decide_True by exact Hb. simpl. now rewrite Hlen.
    + rewrite decide_False by exact Hb. exact Hlen.
Qed.

(** [get_store] with a workspace agrees with the listing of [get_stores]:
    when the listing of the workspace returns, the lookup returns the one
    store of that name in it, raises "not found" when the listing has none,
    and "ambiguous" when it has several; and it leaves the world the listing
    leaves. *)
Theorem get_store_agrees_with_get_stores name workspace (w w' : World Net)
    stores :
  get_stores (Some workspace) w = (Return stores, w') ->
  snd (get_store name (Some workspace) w) = w' /\
  match filter (fun s => store_name s = name) stores with
  | [] => exists detail,
      fst (get_store name (Some workspace) w) = Raise (FailedRequestError detail)
  | [s] => fst (get_store name (Some workspace) w) = Return (Some s)
  | _ => exists msg,
      fst (get_store name (Some workspace) w) = Raise (AmbiguousRequestError msg)
  end.
Proof.
  intros H. unfold get_stores, get_stores_in in H.
  apply bind_inv in H as ([ws|] & w0 & Hr & H); [| discriminate].
  apply bind_inv in H as (ds_list & w1 & Hd & H).
  apply bind_inv in H as (cs_list & w2 & Hc & H).
  apply bind_inv in H as (dl & w3 & Hdl & H).
  apply bind_inv in H as (cl & w4 & Hcl & H).
  inversion H; subst; clear H.
  apply mapM_lift_inv in Hdl as [-> Fd]. apply mapM_lift_inv in Hcl as [-> Fc].
  destruct (comprehension_if_handles DataStoreKind ws name _ _ Fd)
    as (dk & Hdk & Hdlen & Hdall).
  destruct (comprehension_if_handles CoverageStoreKind ws name _ _ Fc)
    as (ck & Hck & Hclen & Hcall).
  unfold get_store.
  rewrite (get_store_in_cases _ _ _ _ _ _ _ _ _ _ _ Hr Hd Hc Hdk Hck). simpl.
  split; [reflexivity |].
  rewrite filter_app.
  assert (Hone : forall kind l s,
             Forall (fun s => s = mkStore kind ws (store_name s)) l ->
             filter (fun s => store_name s = name) l = [s] ->
             s = mkStore kind ws name).
  { intros kind l s Hall Hf.
    assert (Hin : s ∈ filter (fun s => store_name s = name) l)
      by (rewrite Hf; apply list_elem_of_here).
    apply list_elem_of_filter in Hin as [Hn Hin].
    rewrite Forall_forall in Hall. rewrite (Hall s Hin). now rewrite Hn. }
  destruct (filter (fun s => store_name s = name) dl) as [|d [|d' dr]] eqn:Ed;
    destruct (filter (fun s => store_name s = name) cl) as [|c [|c' cr]] eqn:Ec;
    destruct dk as [|? [|? ?]]; simpl in Hdlen; try discriminate;
    destruct ck as [|? [|? ?]]; simpl in Hclen; try discriminate;
    simpl; eauto.
  - now rewrite (Hone _ _ _ Hcall Ec).
  - now rewrite (Hone _ _ _ Hdall Ed).
Qed.

(** ** What a lookup returns carries the name asked for *)

Lemma first_some_returns {A B} (f : A -> Py (option B)) (P : B -> Prop) l
    (w w' : World Net) b :
  (forall x w1 w2 y, f x w1 = (Return (Some y), w2) -> P y) ->
  first_some f l w = (Return (Some b), w') -> P b.
Proof.
  intros Hf. revert w. induction l as [|x l IH]; intros w H; simpl in H.
  - discriminate.
  - apply bind_inv in H as ([y|] & w1 & Hx & H).
    + inversion H; subst. eauto.
    + eauto.
Qed.

Lemma get_store_in_name name workspace (w w' : World Net) s :
  get_store_in name workspace w = (Return (Some s), w') -> store_name s = name.
Proof.
  intros H. unfold get_store_in in H.
  apply bind_inv in H as ([ws|] & w0 & _ & H); [| discriminate].
  apply bind_inv in H as (ds_list & w1 & _ & H).
  apply bind_inv in H as (cs_list & w2 & _ & H).
  apply bind_inv in H as (dss & w3 & Hd & H).
  apply bind_inv in H as (css & w4 & Hc & H).
  unfold lift in Hd, Hc. inversion Hd as [[Hd' Hw3]]. inversion Hc as [[Hc' Hw4]].
  destruct dss as [|d [|d' ds]]; destruct css as [|c [|c' cs]];
    try discriminate.
  - apply bind_inv in H as (x & w5 & Hx & H). inversion H; subst.
    unfold lift, coveragestore_from_index in Hx.
    rewrite (comprehension_if_index_name _ _ _ c Hc') in Hx
      by apply list_elem_of_here.
    now inversion Hx.
  - apply bind_inv in H as (x & w5 & Hx & H). inversion H; subst.
    unfold lift, datastore_from_index in Hx.
    rewrite (comprehension_if_index_name _ _ _ d Hd') in Hx
      by apply list_elem_of_here.
    now inversion Hx.
Qed.

Lemma get_store_loop_name name l store (w w' : World Net) s :
  (forall s0, store = Some s0 -> store_name s0 = name) ->
  for_each (get_store_step name) l store w = (Return (Some s), w') ->
  store_name s = name.
Proof.
  revert store w. induction l as [|ws l IH]; intros store w Hacc H; simpl in H.
  - inversion H; subst. now apply Hacc.
  - apply bind_inv in H as (store' & w1 & Hstep & H).
    apply (IH store' w1); [| exact H].
    intros s0 ->. rewrite get_store_step_unfold in Hstep.
    destruct (get_store_in name (WorkspaceByHandle ws) w) as [[e|[f|]] w2] eqn:Hin.
    + inversion Hstep; subst. now apply Hacc.
    + destruct store; inversion Hstep; subst.
      now apply (get_store_in_name _ _ _ _ _ Hin).
    + inversion Hstep; subst. now apply Hacc.
Qed.

Lemma get_resource_in_store_name name store (w w' : World Net) r :
  get_resource_in_store name store w = (Return (Some r), w') ->
  resource_name r = name.
Proof.
  intros H. unfold get_resource_in_store in H.
  apply bind_inv in H as (resources & w1 & _ & H).
  destruct (filter (fun s => resource_name s = name) resources)
    as [|x [|y l]] eqn:Hf; try discriminate.
  inversion H; subst.
  assert (Hin : r ∈ filter (fun s => resource_name s = name) resources)
    by (rewrite Hf; apply list_elem_of_here).
  now apply list_elem_of_filter in Hin as [Hn _].
Qed.

Lemma get_style_in_name name ws (w w' : World Net) st :
  get_style_in name ws w = (Return (Some st), w') -> style_name st = name.
Proof.
  unfold get_style_in, bind, self_service_url, try_except, ret. simpl.
  unfold bind. destruct (get_xml _ w) as [[e|dom] w1]; intros H;
    now inversion H.
Qed.

(** Whatever scope it is given, a lookup that returns an entity returns one
    with the name that was asked for. *)
Theorem lookups_return_requested_name name :
  (forall (w w' : World Net) x,
      get_workspace name w = (Return (Some x), w') -> workspace_name x = name) /\
  (forall workspace (w w' : World Net) s,
      get_store name workspace w = (Return (Some s), w') -> store_name s = name) /\
  (forall store workspace (w w' : World Net) r,
      get_resource name store workspace w = (Return (Some r), w') ->
      resource_name r = name) /\
  (forall workspace (w w' : World Net) st,
      get_style name workspace w = (Return (Some st), w') ->
      style_name st = name) /\
  (forall (w w' : World Net) l,
      get_layer name w = (Return (Some l), w') -> layer_name l = name).
Proof.
  repeat apply conj.
  - intros w w' x H. unfold get_workspace in H.
    apply bind_inv in H as (workspaces & w1 & _ & H).
    destruct (filter (fun x => workspace_name x = name) workspaces)
      as [|y [|z l]] eqn:Hf; try discriminate.
    inversion H; subst.
    assert (Hin : x ∈ filter (fun x => workspace_name x = name) workspaces)
      by (rewrite Hf; apply list_elem_of_here).
    now apply list_elem_of_filter in Hin as [Hn _].
  - intros [workspace|] w w' s H; unfold get_store in H.
    + now apply (get_store_in_name _ _ _ _ _ H).
    + apply bind_inv in H as (workspaces & w1 & _ & H).
      apply bind_inv in H as ([s0|] & w2 & Hloop & H); [| discriminate].
      inversion H; subst.
      apply (get_store_loop_name name workspaces None w1 w' s); [| exact Hloop].
      intros s0 E. discriminate E.
  - intros [store|] [workspace|] w w' r H; unfold get_resource in H.
    + now apply (get_resource_in_store_name _ _ _ _ _ H).
    + now apply (get_resource_in_store_name _ _ _ _ _ H).
    + unfold get_resource_in_workspace in H.
      apply bind_inv in H as (stores & w1 & _ & H).
      apply (first_some_returns _ (fun r => resource_name r = name) _ _ _ _
               (fun x w1 w2 y E => get_resource_in_store_name _ _ _ _ _ E) H).
    + apply bind_inv in H as (workspaces & w1 & _ & H).
      apply (first_some_returns _ (fun r => resource_name r = name) _ _ _ _) in H;
        [exact H |].
      intros ws wa wb y E. unfold get_resource_in_workspace in E.
      apply bind_inv in E as (stores & wc & _ & E).
      apply (first_some_returns _ (fun r => resource_name r = name) _ _ _ _
               (fun x w1 w2 y E => get_resource_in_store_name _ _ _ _ _ E) E).
  - intros [workspace|] w w' st H; unfold get_style in H.
    + now apply (get_style_in_name _ _ _ _ _ H).
    + apply bind_inv in H as (base & w0 & _ & H).
      apply bind_inv in H as ([st0|] & w1 & Hg & H).
      * inversion H; subst. unfold try_except, bind in Hg.
        destruct (get_xml _ w0) as [[e|dom] w2]; now inversion Hg.
      * apply bind_inv in H as (workspaces & w2 & _ & H).
        apply (first_some_returns _ (fun st => style_name st = name) _ _ _ _
                 (fun x w1 w2 y E => get_style_in_name _ _ _ _ _ E) H).
  - intros w w' l H. unfold get_layer, try_except_FailedRequestError in H.
    destruct (bind (layer_fetch name) _ w) as [[e|[lyr|]] w1] eqn:E.
    + destruct e; inversion H.
    + inversion H; subst.
      apply bind_inv in E as (lyr' & w2 & Hf & E). inversion E; subst.
      unfold layer_fetch in Hf.
      apply bind_inv in Hf as (dom & w3 & _ & Hf). now inversion Hf.
    + discriminate.
Qed.

(** ** Creating a PostGIS store: refusals and the new store *)

Lemma request_unfold r (w : World Net) :
  request r w = (Return (fst (http_request r (net w))), after_request r w).
Proof.
  unfold request, after_request. now destruct (http_request r (net w)).
Qed.

Lemma pg_guard_false user passwd :
  ~ (user = Some "" /\ passwd = "") ->
  bool_decide (user = Some "") && bool_decide (passwd = "") = false.
Proof.
  intros H. apply andb_false_iff.
  destruct (decide (user = Some "")) as [Hu|Hu].
  - right. apply bool_decide_eq_false. tauto.
  - left. now apply bool_decide_eq_false.
Qed.

(** [create_pg_featurestore] refuses an empty user with an empty password
    before it looks at anything: the world is untouched. And over an
    existing store without [overwrite] it raises a conflict in the world the
    look-up left: nothing is sent to change the store and the cache is kept. *)
Theorem create_pg_featurestore_refuses name workspace overwrite host port
    database schema user passwd (w w1 : World Net) st :
  create_pg_featurestore name workspace overwrite host port database schema
                         (Some "") "" w
  = (Raise (PyException
              "Both username and password are empty strings. Use a different user/passwd combination"
              None), w) /\
  (~ (user = Some "" /\ passwd = "") ->
   get_store name (Some (target_workspace workspace)) w = (Return (Some st), w1) ->
   create_pg_featurestore name workspace false host port database schema
                          user passwd w
   = (Raise (ConflictingDataError
               (conflict_message name (target_workspace workspace))), w1)).
Proof.
  split; [reflexivity |].
  intros Hg Hs. unfold create_pg_featurestore. rewrite (pg_guard_false _ _ Hg).
  unfold bind at 1, try_except_FailedRequestError.
  unfold target_workspace in Hs. now rewrite Hs.
Qed.


(** ** Uploads *)

Lemma check_no_store_cases name workspace (w : World Net) :
  check_no_store name workspace w =
  match get_store name (Some workspace) w with
  | (Return _, w1) =>
    (Raise (ConflictingDataError (conflict_message name workspace)), w1)
  | (Raise (FailedRequestError _), w1) => (Return tt, w1)
  | (Raise e, w1) => (Raise e, w1)
  end.
Proof.
  unfold check_no_store, try_except_FailedRequestError, bind, raise, ret.
  destruct (get_store name (Some workspace) w) as [[e|r] w1]; [| reflexivity].
  now destruct e.
Qed.

(** Without [overwrite], [create_shp_featurestore] and
    [create_coveragestore] upload nothing when the look-up of the name comes
    back: both raise a conflict in the world the look-up left. A look-up that
    raises anything but "not found" (an ambiguous name, say) is passed on,
    again with nothing uploaded. *)
Theorem uploads_refuse_existing_name name data workspace charset
    (w w1 : World Net) :
  (forall found,
      get_store name (Some (target_workspace workspace)) w = (Return found, w1) ->
      create_shp_featurestore name data workspace false charset w
      = (Raise (ConflictingDataError
                  (conflict_message name (target_workspace workspace))), w1) /\
      create_coveragestore name data workspace false w
      = (Raise (ConflictingDataError
                  (conflict_message name (target_workspace workspace))), w1)) /\
  (forall msg,
      get_store name (Some (target_workspace workspace)) w
      = (Raise (AmbiguousRequestError msg), w1) ->
      create_shp_featurestore name data workspace false charset w
      = (Raise (AmbiguousRequestError msg), w1) /\
      create_coveragestore name data workspace false w
      = (Raise (AmbiguousRequestError msg), w1)).
Proof.
  split.
  - intros found H. unfold create_shp_featurestore, create_coveragestore.
    unfold target_workspace in H. split.
    + unfold bind at 1. rewrite check_no_store_cases. now rewrite H.
    + unfold bind at 1. rewrite check_no_store_cases. now rewrite H.
  - intros msg H. unfold create_shp_featurestore, create_coveragestore.
    unfold target_workspace in H. split.
    + unfold bind at 1. rewrite check_no_store_cases. now rewrite H.
    + unfold bind at 1. rewrite check_no_store_cases. now rewrite H.
Qed.

(** With [overwrite], [create_shp_featurestore] looks nothing up: it sends
    one PUT of the archive to [.../datastores/<name>/file.shp] (with the
    charset, if any, as the query), clears the cache, and returns on status
    201 alone; every other status, 200 included, is an upload error. *)
Theorem create_shp_featurestore_overwrite name data workspace charset
    (w : World Net) archive :
  let put :=
    mkRequest (url (service_url (catalog w))
                   ["workspaces";
                    util_name_workspace (target_workspace workspace);
                    "datastores"; name; "file.shp"]
                   (charset_params charset))
              PUT (Some (open_file archive)) zip_headers in
  let response := fst (http_request put (net w)) in
  match data with
  | DataDict files => archive = prepare_upload_bundle name files
  | DataPath path => archive = path
  | DataStream _ => False
  end ->
  create_shp_featurestore name data workspace true charset w
  = (if status response =? 201 then Return tt
     else Raise (UploadError (content response)),
     after_mutation put w).
Proof.
  cbv zeta. intros Hdata. unfold create_shp_featurestore.
  unfold bind at 1, ret at 1. unfold bind at 1, self_service_url.
  assert (E : match data with
              | DataDict files => ret (prepare_upload_bundle name files)
              | DataPath path => ret path
              | DataStream _ => raise TypeError
              end (w : World Net) = (Return archive, w)).
  { destruct data; [now subst | now subst | contradiction]. }
  rewrite (bind_return _ _ _ _ _ E).
  unfold bind at 1. rewrite request_unfold.
  unfold bind, cache_clear, after_request, after_mutation, ret, raise,
    target_workspace. simpl.
  now destruct (status _ =? 201).
Qed.

(** [create_coveragestore] with [overwrite] and a workspace handle (or none,
    for the default workspace) sends one PUT to
    [.../coveragestores/<name>/file.<ext>], where the extension is
    [worldimage] (content type [application/archive]) exactly when the data
    is a dictionary with a [tfw] entry and [geotiff] (content type
    [image/tiff]) otherwise; it clears the cache and returns on status 201
    alone. Given the workspace as a string it raises [AttributeError] and
    sends nothing. *)
Theorem create_coveragestore_overwrite name data workspace (w : World Net) :
  let world_file :=
    match data with
    | DataDict files => bool_decide (is_Some (files !! "tfw"))
    | _ => false
    end in
  let body :=
    match data with
    | DataDict files => open_file (prepare_upload_bundle name files)
    | DataPath path => open_file path
    | DataStream stream => stream
    end in
  match target_workspace workspace with
  | WorkspaceByName _ =>
    create_coveragestore name data workspace true w = (Raise AttributeError, w)
  | WorkspaceByHandle ws =>
    let put :=
      mkRequest (url (service_url (catalog w))
                     ["workspaces"; workspace_name ws; "coveragestores"; name;
                      "file." +:+ (if world_file then "worldimage" else "geotiff")]
                     [])
                PUT (Some body)
                [("Content-type",
                  if world_file then "application/archive" else "image/tiff");
                 ("Accept", "application/xml")] in
    let response := fst (http_request put (net w)) in
    create_coveragestore name data workspace true w
    = (if status response =? 201 then Return tt
       else Raise (UploadError (content response)),
       after_mutation put w)
  end.
Proof.
  cbv zeta. unfold create_coveragestore, target_workspace.
  destruct workspace as [[s|ws]|]; destruct data as [files| |];
    try case_bool_decide;
    unfold bind, ret, raise, self_service_url, cache_clear, request,
      after_mutation; simpl;
    try reflexivity;
    destruct (http_request _ (net w)) as [response n']; simpl;
    now destruct (status response =? 201).
Qed.

(** [add_data_to_store], given a store handle and a workspace, checks that
    the store lies in that workspace: if the names differ it fails the
    assertion and sends nothing; if they agree (or no workspace is given) it
    sends the one PUT to the store's [file.shp], clears the cache and returns
    on status 201 alone. *)
Theorem add_data_to_store_checks_workspace st name data workspace
    (overwrite : bool) charset (w : World Net) bundle :
  let ws_name := workspace_name (store_workspace st) in
  let put :=
    mkRequest (url (service_url (catalog w))
                   ["workspaces"; ws_name; "datastores"; store_name st;
                    "file.shp"]
                   ((if overwrite then [("update", "overwrite")] else []) ++
                    charset_params charset))
              PUT (Some (open_file bundle))
              [("Content-Type", "application/zip");
               ("Accept", "application/xml")] in
  let response := fst (http_request put (net w)) in
  match data with
  | DataDict files => bundle = prepare_upload_bundle name files
  | DataPath path => bundle = path
  | DataStream _ => False
  end ->
  (forall a, workspace = Some a -> util_name_workspace a <> ws_name ->
   exists msg,
     add_data_to_store (StoreByHandle st) name data workspace overwrite charset w
     = (Raise (AssertionError msg), w)) /\
  ((forall a, workspace = Some a -> util_name_workspace a = ws_name) ->
   add_data_to_store (StoreByHandle st) name data workspace overwrite charset w
   = (if status response =? 201 then Return tt
      else Raise (UploadError (content response)),
      after_mutation put w)).
Proof.
  cbv zeta. intros Hdata. unfold add_data_to_store. split.
  - intros a -> Hne. unfold bind, ret, raise. cbv zeta.
    rewrite bool_decide_eq_false_2 by congruence. eauto.
  - intros Hsame.
    destruct workspace as [a|];
      [rewrite (Hsame a eq_refl) |];
      destruct data as [files|path|stream]; try contradiction; subst bundle;
      unfold bind, ret, raise, self_service_url, cache_clear, request,
        after_mutation; cbv zeta;
      rewrite ?bool_decide_eq_true_2 by reflexivity; simpl;
      destruct (http_request _ (net w)) as [response n']; simpl;
      now destruct (status response =? 201).
Qed.

(** ** Styles and workspaces *)

(** [create_style], from the world [w1] the look-up of the style left. Over
    an existing style it raises a conflict without [overwrite] and sends the
    PUT of the SLD alone with it. For a new style it first POSTs the entry:
    if that is refused it raises an upload error, sends no PUT and leaves the
    cache uncleared; otherwise the PUT follows. After the PUT the cache is
    cleared whatever its status, and a status outside 200..299 is an upload
    error. *)
Theorem create_style_requests name sld overwrite (w w1 : World Net) found :
  let base := service_url (catalog w1) in
  let post := style_post base name in
  let put := style_put base name sld in
  let finish (w2 : World Net) :=
    (if out_of_2xx (status (fst (http_request put (net w2))))
     then Raise (UploadError (content (fst (http_request put (net w2)))))
     else Return tt,
     after_mutation put w2) in
  get_style name None w = (Return found, w1) ->
  create_style name sld overwrite w =
  match found, overwrite with
  | Some _, false =>
    (Raise (ConflictingDataError ("There is already a style named " +:+ name)),
     w1)
  | Some _, true => finish w1
  | None, _ =>
    if out_of_2xx (status (fst (http_request post (net w1))))
    then (Raise (UploadError (content (fst (http_request post (net w1))))),
          after_request post w1)
    else finish (after_request post w1)
  end.
Proof.
  cbv zeta. intros H. unfold create_style.
  rewrite (bind_return _ _ _ _ _ H).
  assert (Hput : forall w2 : World Net,
             service_url (catalog w2) = service_url (catalog w1) ->
             bind (request (style_put (service_url (catalog w1)) name sld))
                  (fun response =>
                     bind cache_clear
                          (fun _ => if out_of_2xx (status response)
                                    then raise (UploadError (content response))
                                    else ret tt)) w2
             = (if out_of_2xx
                     (status (fst (http_request
                                     (style_put (service_url (catalog w1)) name sld)
                                     (net w2))))
                then Raise (UploadError
                              (content (fst (http_request
                                               (style_put (service_url (catalog w1))
                                                          name sld) (net w2)))))
                else Return tt,
                after_mutation (style_put (service_url (catalog w1)) name sld) w2)).
  { intros w2 Hu. unfold bind at 1. rewrite request_unfold.
    unfold bind, cache_clear, after_mutation, after_request, ret, raise. simpl.
    rewrite Hu. now destruct (out_of_2xx _). }
  destruct found as [st|], overwrite; simpl.
  - unfold bind at 1, ret at 1. unfold bind at 1, self_service_url.
    unfold bind at 1, ret at 1. now apply Hput.
  - reflexivity.
  - unfold bind at 1, ret at 1. unfold bind at 1, self_service_url.
    unfold bind at 1. unfold bind at 1. rewrite request_unfold.
    fold (style_post (service_url (catalog w1)) name).
    destruct (out_of_2xx (status (fst (http_request
                (style_post (service_url (catalog w1)) name) (net w1)))));
      [reflexivity |].
    now apply Hput.
  - unfold bind at 1, ret at 1. unfold bind at 1, self_service_url.
    unfold bind at 1. unfold bind at 1. rewrite request_unfold.
    fold (style_post (service_url (catalog w1)) name).
    destruct (out_of_2xx (status (fst (http_request
                (style_post (service_url (catalog w1)) name) (net w1)))));
      [reflexivity |].
    now apply Hput.
Qed.

(** [create_workspace] POSTs the namespace. A status outside 200..299 fails
    the assertion, with the status and the body in the message and the cache
    left as it was. Otherwise the cache is cleared and the workspace is
    looked up by name, which always reads the listing afresh from the
    server: the requests sent are the POST and then the GET of
    [workspaces.xml]. *)
Theorem create_workspace_rereads_listing name uri (w : World Net) :
  let post :=
    mkRequest (service_url (catalog w) +:+ "/namespaces/") POST
              (Some ("<namespace><prefix>" +:+ name +:+ "</prefix><uri>" +:+
                     uri +:+ "</uri></namespace>"))
              [("Content-Type", "application/xml")] in
  let response := fst (http_request post (net w)) in
  if (200 <=? status response) && (status response <? 300) then
    create_workspace name uri w = get_workspace name (after_mutation post w) /\
    sent (snd (create_workspace name uri w)) =
      sent w ++ [post; get_request (service_url (catalog w) +:+ "/workspaces.xml")]
  else
    create_workspace name uri w =
    (Raise (AssertionError ("Error creating workspace: " +:+
                            pretty (status response) +:+ ": " +:+
                            content response)),
     after_request post w).
Proof.
  cbv zeta.
  set (post := mkRequest (service_url (catalog w) +:+ "/namespaces/") POST
                 (Some ("<namespace><prefix>" +:+ name +:+ "</prefix><uri>" +:+
                        uri +:+ "</uri></namespace>"))
                 [("Content-Type", "application/xml")]).
  assert (E : create_workspace name uri w =
              if (200 <=? status (fst (http_request post (net w)))) &&
                 (status (fst (http_request post (net w))) <? 300)
              then get_workspace name (after_mutation post w)
              else (Raise (AssertionError
                             ("Error creating workspace: " +:+
                              pretty (status (fst (http_request post (net w)))) +:+
                              ": " +:+
                              content (fst (http_request post (net w))))),
                    after_request post w)).
  { unfold create_workspace.
    unfold bind at 1, self_service_url. unfold bind at 1.
    rewrite request_unfold. fold post.
    now destruct ((200 <=? _) && (_ <? 300)). }
  rewrite E. clear E.
  destruct ((200 <=? _) && (_ <? 300)); [| reflexivity].
  split; [reflexivity |].
  assert (Hsent : forall w0 : World Net,
             _cache (catalog w0) = ∅ ->
             sent (snd (get_workspace name w0)) =
             sent w0 ++ [get_request (service_url (catalog w0) +:+
                                      "/workspaces.xml")]).
  { intros w0 He.
    pose proof (get_xml_sent_after_clear
                  (service_url (catalog w0) +:+ "/workspaces.xml") w0 He) as Hx.
    unfold get_workspace, get_workspaces, bind, self_service_url.
    destruct (get_xml _ w0) as [[e|description] w1]; [exact Hx |].
    simpl in Hx.
    pose proof (mapM_lift_world workspace_from_index
                  (findall "workspace" description) w1) as Hm.
    destruct (mapM _ (findall "workspace" description) w1)
      as [[e|workspaces] w2]; simpl in Hm; subst w2; [exact Hx |].
    now destruct (filter _ workspaces) as [|x [|y l]]. }
  rewrite Hsent by reflexivity. simpl. now rewrite <- app_assoc.
Qed.

(** [set_default_workspace] with a name no workspace has does nothing and
    reports nothing: it returns in the world the look-up left. With a known
    name it PUTs the workspace's own XML to [workspaces/default.xml]; it
    clears the cache on a status in 200..299 and otherwise fails the
    assertion with the cache left as it was. *)
Theorem set_default_workspace_cases name (w w1 : World Net) found :
  get_workspace name w = (Return found, w1) ->
  set_default_workspace name w =
  match found with
  | None => (Return tt, w1)
  | Some workspace =>
    let put :=
      mkRequest (service_url (catalog w1) +:+ "/workspaces/default.xml") PUT
                (Some (workspace_message workspace))
                [("Content-Type", "application/xml")] in
    let response := fst (http_request put (net w1)) in
    if (200 <=? status response) && (status response <? 300)
    then (Return tt, after_mutation put w1)
    else (Raise (AssertionError ("Error setting default workspace: " +:+
                                 pretty (status response) +:+ ": " +:+
                                 content response)),
          after_request put w1)
  end.
Proof.
  intros H. unfold set_default_workspace. rewrite (bind_return _ _ _ _ _ H).
  destruct found as [workspace|]; [| reflexivity].
  cbv zeta. unfold bind at 1, self_service_url. unfold bind at 1.
  rewrite request_unfold.
  now destruct ((200 <=? _) && (_ <? 300)).
Qed.

(** ** Layer groups *)

(** [create_layergroup] changes nothing on the server: it reads the listing
    of the layer groups and, in the world that reading left, raises a
    conflict when a listed group has the name and otherwise hands back the
    unsaved group with the arguments as given. *)
Theorem create_layergroup_checks_listing {L S B : Type} name (layers : L)
    (styles : S) (bounds : B) (w w1 : World Net) groups :
  get_layergroups w = (Return groups, w1) ->
  (mkLayerGroup (Some name) ∈ groups ->
   create_layergroup name layers styles bounds w
   = (Raise (ConflictingDataError
               ("LayerGroup named " +:+ name +:+ " already exists!")), w1)) /\
  (mkLayerGroup (Some name) ∉ groups ->
   create_layergroup name layers styles bounds w
   = (Return (mkUnsavedLayerGroup name layers styles bounds), w1)).
Proof.
  intros H. unfold create_layergroup. rewrite (bind_return _ _ _ _ _ H).
  destruct (existsb (fun g => bool_decide (layergroup_name g = Some name)) groups)
    eqn:E.
  - split; [reflexivity |]. intros Hn. exfalso. apply Hn.
    apply existsb_exists in E as ([n] & Hin & Hg).
    apply bool_decide_eq_true in Hg. simpl in Hg. subst n.
    now apply list_elem_of_In.
  - split; [| reflexivity]. intros Hin. exfalso.
    assert (existsb (fun g => bool_decide (layergroup_name g = Some name)) groups
            = true); [| congruence].
    apply existsb_exists. exists (mkLayerGroup (Some name)).
    split; [now apply list_elem_of_In | now apply bool_decide_eq_true].
Qed.

End Properties.

(** * The catalogue definition dialog *)

Module DialogFacts.
Import Dialog.

Lemma startswith_app s t prefix :
  startswith s prefix = true -> startswith (s +:+ t) prefix = true.
Proof.
  revert s. induction prefix as [|c prefix IH]; intros s H; [reflexivity |].
  destruct s as [|d s]; [discriminate |].
  change (String d s +:+ t) with (String d (s +:+ t)). simpl in *.
  apply andb_true_iff in H as [Hc Hs].
  now rewrite Hc, (IH _ Hs).
Qed.

Lemma endswith_cons c s suffix :
  endswith s suffix = true -> endswith (String c s) suffix = true.
Proof.
  intros H.
  change (endswith (String c s) suffix)
    with (if String.eqb (String c s) suffix then true else endswith s suffix).
  rewrite H. now destruct (String.eqb (String c s) suffix).
Qed.

Lemma endswith_prepend prefix s suffix :
  endswith s suffix = true -> endswith (prefix +:+ s) suffix = true.
Proof.
  intros H. induction prefix as [|c prefix IH]; [exact H |].
  change (String c prefix +:+ s) with (String c (prefix +:+ s)).
  now apply endswith_cons.
Qed.

(** The service URL [okPressed] computes always starts with [http] and ends
    with [/rest]: the text of the box is kept when it starts with [http],
    and is given the scheme [http://] otherwise. *)
Theorem rest_url_shape url_text :
  startswith (rest_url url_text) "http" = true /\
  endswith (rest_url url_text) "/rest" = true /\
  (rest_url url_text = url_text +:+ "/rest" \/
   rest_url url_text = "http://" +:+ url_text +:+ "/rest") /\
  (startswith url_text "http" = true ->
   rest_url url_text = url_text +:+ "/rest").
Proof.
  unfold rest_url.
  destruct (startswith (url_text +:+ "/rest") "http") eqn:E.
  - repeat split; auto. apply endswith_app.
  - repeat split; auto.
    + apply (endswith_prepend "http://"). apply endswith_app.
    + intros H. rewrite (startswith_app _ "/rest" _ H) in E. discriminate.
Qed.

(** *** The search for a free name *)

Lemma append_longer (s : string) c t : s <> s +:+ String c t.
Proof.
  induction s as [|a s IH]; [discriminate |].
  change (String a s +:+ String c t) with (String a (s +:+ String c t)).
  intros H. injection H as H. now apply IH.
Qed.

Lemma candidate_inj entered i j :
  candidate entered i = candidate entered j -> i = j.
Proof.
  destruct i as [|i], j as [|j]; unfold candidate; intros H.
  - reflexivity.
  - exfalso. now apply (append_longer entered _ _ H).
  - exfalso. symmetry in H. now apply (append_longer entered _ _ H).
  - apply (inj (String.app entered)) in H.
    apply (inj (String.app "_")) in H.
    apply (inj pretty) in H. lia.
Qed.

(** Among the first [length catalogs + 1] candidates one is free. *)
Lemma candidate_free_exists entered (catalogs : list string) :
  exists k, (k <= length catalogs)%nat /\ candidate entered k ∉ catalogs.
Proof.
  destruct (decide (Exists (fun k => candidate entered k ∉ catalogs)
                           (seq 0 (S (length catalogs))))) as [He|Hn].
  - apply Exists_exists in He as (k & Hk & Hfree).
    apply elem_of_seq in Hk. exists k. split; [lia | exact Hfree].
  - exfalso.
    assert (Hall : forall x, x ∈ map (candidate entered)
                                   (seq 0 (S (length catalogs))) ->
                             x ∈ catalogs).
    { intros x Hx. apply list_elem_of_fmap in Hx as (k & -> & Hk).
      destruct (decide (candidate entered k ∈ catalogs)) as [|Hout];
        [assumption |].
      exfalso. apply Hn. apply Exists_exists. eauto. }
    assert (Hnd : NoDup (map (candidate entered) (seq 0 (S (length catalogs))))).
    { apply (NoDup_fmap_2_strong (candidate entered)).
      - intros i j _ _. apply candidate_inj.
      - apply NoDup_seq. }
    pose proof (submseteq_length _ _ (NoDup_submseteq _ _ Hnd Hall)) as Hlen.
    rewrite length_map, length_seq in Hlen. lia.
Qed.

Lemma free_name_from entered catalogs fuel j :
  (exists k, ((j <= k)%nat /\ (k < j + fuel)%nat) /\
             candidate entered k ∉ catalogs) ->
  exists k, ((j <= k)%nat /\ (k < j + fuel)%nat) /\
            free_name fuel catalogs entered (candidate entered j)
                      (Z.of_nat j + 2)
            = Some (candidate entered k) /\
            (candidate entered k ∉ catalogs) /\
            forall i, (j <= i)%nat /\ (i < k)%nat ->
                      candidate entered i ∈ catalogs.
Proof.
  revert j. induction fuel as [|fuel IH]; intros j (k & Hk & Hfree).
  - lia.
  - simpl. case_bool_decide as Hin.
    + assert (Hk' : (S j <= k)%nat /\ (k < S j + fuel)%nat).
      { destruct (decide (k = j)) as [->|]; [contradiction | lia]. }
      destruct (IH (S j) (ex_intro _ k (conj Hk' Hfree)))
        as (k' & Hr & He & Hf & Hbelow).
      exists k'. split; [lia |]. split; [| split; [exact Hf |]].
      * unfold candidate in He at 1.
        replace (Z.of_nat (S j) + 1) with (Z.of_nat j + 2) in He by lia.
        replace (Z.of_nat (S j) + 2) with (Z.of_nat j + 2 + 1) in He by lia.
        exact He.
      * intros i Hi. destruct (decide (i = j)) as [->|]; [exact Hin |].
        apply Hbelow. lia.
    + exists j. split; [lia |]. split; [reflexivity |].
      split; [exact Hin |]. intros i Hi. lia.
Qed.

(** The name [okPressed] settles on. With fuel for one turn more than there
    are catalogues the search ends, and it ends on the first of the entered
    name, the name with [_2], with [_3], ... that no catalogue has: so the
    new catalogue never takes the name of an existing one, and keeps the
    entered name whenever that is free. *)
Theorem free_name_first_free entered (catalogs : list string) fuel :
  (length catalogs < fuel)%nat ->
  exists k, (k <= length catalogs)%nat /\
            free_name fuel catalogs entered entered 2
            = Some (candidate entered k) /\
            (candidate entered k ∉ catalogs) /\
            (forall i, (i < k)%nat -> candidate entered i ∈ catalogs) /\
            (entered ∉ catalogs -> candidate entered k = entered).
Proof.
  intros Hfuel.
  destruct (candidate_free_exists entered catalogs) as (k0 & Hk0 & Hfree0).
  destruct (free_name_from entered catalogs fuel 0)
    as (k & Hk & He & Hfree & Hbelow).
  { exists k0. split; [lia | exact Hfree0]. }
  exists k. repeat split.
  - destruct (decide (k <= k0)%nat); [lia |].
    exfalso. apply Hfree0. apply Hbelow. lia.
  - exact He.
  - exact Hfree.
  - intros i Hi. apply Hbelow. lia.
  - intros Hent. destruct k as [|k]; [reflexivity |].
    exfalso. apply Hent. apply (Hbelow 0%nat). lia.
Qed.

(** *** [okPressed] and the settings *)

Section Settings.
Variable to_bool : QVariant -> bool.

Lemma okPressed_unfold fuel catalogs d settings d' settings' :
  okPressed to_bool fuel catalogs d settings = Some (d', settings') ->
  exists chosen,
    free_name fuel catalogs (nameBox d) (nameBox d) 2 = Some chosen /\
    d' = mkDialog (nameBox d) (urlBox d) (usernameBox d) (passwordBox d)
                  (urlGeonodeBox d) true
                  (Some (mkConnection (rest_url (urlBox d)) (usernameBox d)
                                      (passwordBox d) chosen (urlGeonodeBox d))) /\
    settings' =
      if save_catalogs to_bool (remembered d settings) then
        <[("/OpenGeo/GeoServer/" +:+ chosen) +:+ "/geonode"
          := QText (urlGeonodeBox d)]>
          (<[("/OpenGeo/GeoServer/" +:+ chosen) +:+ "/password"
             := QText (passwordBox d)]>
             (<[("/OpenGeo/GeoServer/" +:+ chosen) +:+ "/username"
                := QText (usernameBox d)]>
                (<[("/OpenGeo/GeoServer/" +:+ chosen) +:+ "/url"
                   := QText (rest_url (urlBox d))]> (remembered d settings))))
      else remembered d settings.
Proof.
  unfold okPressed. destruct (free_name _ _ _ _ _) as [chosen|]; [| discriminate].
  intros H. inversion H; subst. exists chosen. repeat split.
Qed.

(** [okPressed] accepts: with fuel for one turn more than there are
    catalogues it returns, sets [ok], keeps the boxes, and leaves a
    connection whose URL is the normalised text and whose name is none of
    the existing catalogues' names (the entered name itself when that is
    free). *)
Theorem okPressed_accepts fuel catalogs d settings :
  (length catalogs < fuel)%nat ->
  exists d' settings' c,
    okPressed to_bool fuel catalogs d settings = Some (d', settings') /\
    ok d' = true /\
    nameBox d' = nameBox d /\ urlBox d' = urlBox d /\
    connection d' = Some c /\
    (name c ∉ catalogs) /\
    (nameBox d ∉ catalogs -> name c = nameBox d) /\
    url c = rest_url (urlBox d) /\
    username c = usernameBox d /\ password c = passwordBox d /\
    geonodeUrl c = urlGeonodeBox d.
Proof.
  intros Hfuel.
  destruct (free_name_first_free (nameBox d) catalogs fuel Hfuel)
    as (k & _ & He & Hfree & _ & Hent).
  unfold okPressed. rewrite He.
  eexists _, _, _. split; [reflexivity |]. simpl. repeat split; auto.
Qed.

Lemma group_key_fresh chosen suffix key :
  startswith key "/OpenGeo/GeoServer/" = false ->
  ("/OpenGeo/GeoServer/" +:+ chosen) +:+ suffix <> key.
Proof.
  intros H E. subst key.
  assert (Hs : startswith (("/OpenGeo/GeoServer/" +:+ chosen) +:+ suffix)
                          "/OpenGeo/GeoServer/" = true).
  { apply startswith_app. apply startswith_app. reflexivity. }
  congruence.
Qed.

Lemma lookup_after_group chosen (m : gmap string QVariant) a b c e key :
  startswith key "/OpenGeo/GeoServer/" = false ->
  (<[("/OpenGeo/GeoServer/" +:+ chosen) +:+ "/geonode" := a]>
     (<[("/OpenGeo/GeoServer/" +:+ chosen) +:+ "/password" := b]>
        (<[("/OpenGeo/GeoServer/" +:+ chosen) +:+ "/username" := c]>
           (<[("/OpenGeo/GeoServer/" +:+ chosen) +:+ "/url" := e]> m))))
  !! key = m !! key.
Proof.
  intros H.
  now rewrite !lookup_insert_ne by (now apply group_key_fresh).
Qed.

(** What is typed is what the next dialog opens with: after [okPressed],
    [initGui] over the settings it left shows the catalogue name, the URL and
    the GeoNode URL as they were entered (the URL without the [/rest] that
    the connection got); the user name and the password are not remembered
    and open as [admin] and [geoserver]. *)
Theorem okPressed_then_initGui fuel catalogs d settings d' settings' :
  okPressed to_bool fuel catalogs d settings = Some (d', settings') ->
  initGui settings' =
  Return (mkDialog (nameBox d) (urlBox d) "admin" "geoserver"
                   (urlGeonodeBox d) false None).
Proof.
  intros H. apply okPressed_unfold in H as (chosen & _ & _ & ->).
  assert (Hk : forall key,
             startswith key "/OpenGeo/GeoServer/" = false ->
             (if save_catalogs to_bool (remembered d settings) then
                <[("/OpenGeo/GeoServer/" +:+ chosen) +:+ "/geonode"
                  := QText (urlGeonodeBox d)]>
                  (<[("/OpenGeo/GeoServer/" +:+ chosen) +:+ "/password"
                     := QText (passwordBox d)]>
                     (<[("/OpenGeo/GeoServer/" +:+ chosen) +:+ "/username"
                        := QText (usernameBox d)]>
                        (<[("/OpenGeo/GeoServer/" +:+ chosen) +:+ "/url"
                           := QText (rest_url (urlBox d))]>
                           (remembered d settings))))
              else remembered d settings) !! key
             = remembered d settings !! key).
  { intros key Hkey. destruct (save_catalogs _ _); [| reflexivity].
    now apply lookup_after_group. }
  unfold initGui, value.
  rewrite !Hk by reflexivity. unfold remembered.
  rewrite lookup_insert_ne by discriminate.
  rewrite lookup_insert_ne by discriminate.
  rewrite lookup_insert_eq. simpl.
  rewrite lookup_insert_ne by discriminate.
  rewrite lookup_insert_eq. simpl.
  now rewrite lookup_insert_eq.
Qed.

(** What [okPressed] stores of the connection. When the [SaveCatalogs]
    setting is absent or converts to true, the four values of the connection
    (the password among them, as text) are stored under
    [/OpenGeo/GeoServer/<name>/]; when it converts to false, nothing but the
    three remembered texts is written: every other key reads as before. *)
Theorem okPressed_saves_connection fuel catalogs d settings d' settings' c :
  okPressed to_bool fuel catalogs d settings = Some (d', settings') ->
  connection d' = Some c ->
  let group := "/OpenGeo/GeoServer/" +:+ name c in
  let save := match settings !! "/OpenGeo/Settings/GeoServer/SaveCatalogs" with
              | Some v => to_bool v
              | None => true
              end in
  if save then
    settings' !! (group +:+ "/url") = Some (QText (url c)) /\
    settings' !! (group +:+ "/username") = Some (QText (usernameBox d)) /\
    settings' !! (group +:+ "/password") = Some (QText (passwordBox d)) /\
    settings' !! (group +:+ "/geonode") = Some (QText (urlGeonodeBox d))
  else
    forall key,
      key <> "/OpenGeo/LastCatalogName" -> key <> "/OpenGeo/LastCatalogUrl" ->
      key <> "/OpenGeo/LastGeoNodeUrl" ->
      settings' !! key = settings !! key.
Proof.
  intros H Hc. apply okPressed_unfold in H as (chosen & _ & -> & ->).
  simpl in Hc. inversion Hc; subst c; clear Hc. cbv zeta. simpl.
  assert (Hsave : save_catalogs to_bool (remembered d settings) =
                  match settings !! "/OpenGeo/Settings/GeoServer/SaveCatalogs" with
                  | Some v => to_bool v
                  | None => true
                  end).
  { unfold save_catalogs, remembered.
    now rewrite !lookup_insert_ne by discriminate. }
  rewrite Hsave.
  destruct (match settings !! "/OpenGeo/Settings/GeoServer/SaveCatalogs" with
            | Some v => to_bool v
            | None => true
            end).
  - assert (Hne : forall a b : string,
               a <> b ->
               ("/OpenGeo/GeoServer/" +:+ chosen) +:+ a
               <> ("/OpenGeo/GeoServer/" +:+ chosen) +:+ b).
    { intros a b Hab E. apply Hab.
      now apply (inj (String.app ("/OpenGeo/GeoServer/" +:+ chosen))) in E. }
    repeat split.
    + rewrite !lookup_insert_ne by (apply Hne; discriminate).
      apply lookup_insert_eq.
    + rewrite !lookup_insert_ne by (apply Hne; discriminate).
      apply lookup_insert_eq.
    + rewrite lookup_insert_ne by (apply Hne; discriminate).
      apply lookup_insert_eq.
    + apply lookup_insert_eq.
  - intros key H1 H2 H3. unfold remembered.
    now rewrite !lookup_insert_ne by congruence.
Qed.

End Settings.

End DialogFacts.

(** * Worked examples on the concrete server *)

Module Examples.
Import Demo.

Definition roads : ConfigObject :=
  mkConfigObject "http://gs/rest/layers/roads" "<layer/>" PUT.

(** C8, counterexample. The transport answers a DELETE with 204, a status
    inside the 2xx range, and [delete] raises [FailedRequestError]. *)
Lemma delete_raises_on_204 :
  status (fst (http_request
                 (mkRequest (delete_url (href roads) false false) DELETE None
                            xml_headers)
                 (net (start 0 [] 204)))) = 204 /\
  200 <= 204 < 300 /\
  fst (delete roads false false (start 0 [] 204)) = Raise (FailedRequestError "").
Proof. split; [reflexivity | split; [lia | reflexivity]]. Qed.

(** C9, counterexample. The answer to a GET has status 404 and a body that
    is not XML: the fetch raises [FailedRequestError] with the body alone,
    not the decode error. *)
Lemma get_xml_404_is_no_decode_error :
  XML "No such page" = None /\
  status (fst (http_request (get_request "http://gs/rest/layers/roads.xml")
                            (net (start 0 [] 200)))) = 404 /\
  fst (get_xml "http://gs/rest/layers/roads.xml" (start 0 [] 200))
  = Raise (FailedRequestError "No such page").
Proof. repeat split. Qed.

(** A page answered with status 200 whose body is not XML. *)
Definition broken_site : list (string * Response) :=
  [ page "http://gs/rest/layers/roads.xml" "<layer><name>roads</layer>" ].

Lemma get_xml_non_xml_payload_witness :
  fst (get_xml "http://gs/rest/layers/roads.xml" (start 0 broken_site 200)) =
    Raise (PyException
             (non_xml_message "http://gs/rest/layers/roads.xml"
                              "<layer><name>roads</layer>")
             (Some ExpatError)) /\
  exists before between,
    non_xml_message "http://gs/rest/layers/roads.xml" "<layer><name>roads</layer>" =
    before +:+ "http://gs/rest/layers/roads.xml" +:+ between +:+
    "<layer><name>roads</layer>".
Proof.
  apply (proj1 (@get_xml_non_xml_payload demo "http://gs/rest/layers/roads.xml"
                  (start 0 broken_site 200) "<layer><name>roads</layer>")).
  - reflexivity.
  - right. split; [| split; reflexivity].
    intros stamp raw_text H. vm_compute in H. discriminate H.
Defined.

Lemma get_xml_stores_only_200_witness :
  _cache (catalog (snd (get_xml "http://gs/rest/layers/roads.xml" (start 0 [] 200))))
  = _cache (catalog (start 0 [] 200)) /\
  ((exists stamp raw_text,
       _cache (catalog (start 0 [] 200)) !! "http://gs/rest/layers/roads.xml"
       = Some (stamp, raw_text) /\
       datetime_now (net (start 0 [] 200)) - stamp < five_seconds /\
       get_xml "http://gs/rest/layers/roads.xml" (start 0 [] 200)
       = parse_or_raise "http://gs/rest/layers/roads.xml" raw_text (start 0 [] 200))
   \/
   get_xml "http://gs/rest/layers/roads.xml" (start 0 [] 200) =
     (Raise (FailedRequestError
               (content (fst (http_request
                                (get_request "http://gs/rest/layers/roads.xml")
                                (net (start 0 [] 200)))))),
      after_get "http://gs/rest/layers/roads.xml" (start 0 [] 200))).
Proof.
  apply (@get_xml_stores_only_200 demo "http://gs/rest/layers/roads.xml" (start 0 [] 200)).
  vm_compute. discriminate.
Defined.

Definition ws_a : Workspace := mkWorkspace "a".
Definition ws_b : Workspace := mkWorkspace "b".
Definition store_a : Store := mkStore DataStoreKind ws_a "s".
Definition store_b : Store := mkStore DataStoreKind ws_b "s".
Definition workspaces_url : string := "http://gs/rest/workspaces.xml".

(** The world of [site_twice] once the data-store listing of [a], then its
    coverage-store listing, are fetched. *)
Definition twice_0 : World DemoNet := start 0 site_twice 200.
Definition twice_1 : World DemoNet := snd (get_xml (datastore_url ws_a) twice_0).
Definition twice_2 : World DemoNet := snd (get_xml (coveragestore_url ws_a) twice_1).

Lemma get_store_scoped_classifies_witness :
  fst (get_store "s" (Some (WorkspaceByHandle ws_a)) twice_0)
  = Return (Some store_a).
Proof.
  refine (proj1 (proj2
    (@get_store_scoped_classifies demo "s" (WorkspaceByHandle ws_a)
       twice_0 twice_0 twice_1 twice_2 ws_a
       (Elem "dataStores" None [entry "dataStore" "s"])
       (Elem "coverageStores" None [])
       [entry "dataStore" "s"] [] _ _ _ _ _)) _ _); reflexivity.
Defined.

(** In [site_clash] the workspace [a] lists [s] as a data store and as a
    coverage store: the scoped lookup is ambiguous. *)
Definition clash_0 : World DemoNet := start 0 site_clash 200.
Definition clash_1 : World DemoNet := snd (get_xml (datastore_url ws_a) clash_0).
Definition clash_2 : World DemoNet := snd (get_xml (coveragestore_url ws_a) clash_1).

Lemma scoped_lookups_resolve_exactly_one_witness :
  exists msg,
    get_store "s" (Some (WorkspaceByHandle ws_a)) clash_0
    = (Raise (AmbiguousRequestError msg), clash_2).
Proof.
  refine (proj2 (proj2
    (proj1 (proj2 (proj2 (@scoped_lookups_resolve_exactly_one demo "s")))
       (WorkspaceByHandle ws_a) clash_0 clash_0 clash_1 clash_2 ws_a
       (Elem "dataStores" None [entry "dataStore" "s"])
       (Elem "coverageStores" None [entry "coverageStore" "s"])
       [entry "dataStore" "s"] [entry "coverageStore" "s"] _ _ _ _ _)) _);
    first [reflexivity | simpl; lia].
Defined.

(** C3, the code at the failing input. Of the workspaces [a] and [b], the
    lookup in [a] raises "ambiguous" (two stores named [s] there), which is
    no "store absent" failure; the unscoped lookup drops it all the same and
    returns the store of [b]. *)
Lemma get_store_drops_ambiguous_workspace :
  fst (get_workspaces clash_0) = Return [ws_a; ws_b] /\
  (exists msg,
      fst (get_store "s" (Some (WorkspaceByHandle ws_a))
                     (snd (get_workspaces clash_0)))
      = Raise (AmbiguousRequestError msg)) /\
  fst (get_store "s" None clash_0) = Return (Some store_b).
Proof. split; [reflexivity | split; [eexists |]; reflexivity]. Qed.

(** A creation request that the server accepts with status 201. *)
Definition accepting : World DemoNet := start 0 site_twice 201.
Definition warmed : World DemoNet := snd (get_xml workspaces_url accepting).
Definition after_featuretype : World DemoNet :=
  snd (create_pg_featuretype "roads" (StoreByName "s")
                             (Some (WorkspaceByName "a")) "EPSG:4326" warmed).

(** C5, the code at the failing input. [create_pg_featuretype] sends a POST,
    the server answers 201, the call returns, and the cache still holds the
    entry it held. *)
Lemma create_pg_featuretype_keeps_cache :
  fst (create_pg_featuretype "roads" (StoreByName "s")
                             (Some (WorkspaceByName "a")) "EPSG:4326" warmed)
  = Return tt /\
  map req_method (sent after_featuretype) = [GET; POST] /\
  _cache (catalog warmed) !! workspaces_url = Some (0, workspaces_xml) /\
  _cache (catalog after_featuretype) !! workspaces_url = Some (0, workspaces_xml).
Proof. repeat split. Qed.

(** C4, the code at the failing input. After the mutating call above, the
    same GET within five seconds is served from the cache: no request is
    sent. After a [delete], it is fetched afresh. *)
Lemma get_xml_cached_after_create_pg_featuretype :
  map req_method (sent after_featuretype) = [GET; POST] /\
  sent (snd (get_xml workspaces_url after_featuretype)) = sent after_featuretype /\
  sent (snd (get_xml workspaces_url (snd (delete roads false false warmed))))
  = sent (snd (delete roads false false warmed)) ++ [get_request workspaces_url].
Proof. repeat split. Qed.

(** The store [s] of workspace [a] has the connection of [demo_connection]. *)
Lemma create_pg_featurestore_overwrite_witness :
  create_pg_featurestore "s" (Some (WorkspaceByHandle ws_a)) true
                         "localhost" (PortInt 5432) "db" "public"
                         (Some "postgres") "secret" twice_0
  = (Return tt, twice_2).
Proof.
  refine (proj1 (proj2
    (@create_pg_featurestore_overwrite demo "s" (Some (WorkspaceByHandle ws_a))
       "localhost" (PortInt 5432) "db" "public" (Some "postgres") "secret"
       twice_0 twice_2 twice_2 store_a demo_connection _ _ _)) _).
  - intros [H _]. discriminate H.
  - reflexivity.
  - reflexivity.
  - intros key value [H|[H|[H|[H|[]]]]]; inversion H; subst;
      eexists; split; reflexivity.
Defined.

(** C6, counterexample. The store [s] of workspace [a] exists and nothing is
    cached. Called with the parameters the store has, the creation returns
    and has sent two requests, the GETs of the store look-up. Called with no
    user, which differs from the store's, it sends no PUT: it raises
    "Undefined user" after the same two GETs. *)
Lemma create_pg_featurestore_overwrite_sends_gets :
  sent twice_0 = [] /\
  create_pg_featurestore "s" (Some (WorkspaceByHandle ws_a)) true
                         "localhost" (PortInt 5432) "db" "public"
                         (Some "postgres") "secret" twice_0
  = (Return tt, twice_2) /\
  create_pg_featurestore "s" (Some (WorkspaceByHandle ws_a)) true
                         "localhost" (PortInt 5432) "db" "public"
                         None "secret" twice_0
  = (Raise (PyException "Undefined user" None), twice_2) /\
  sent twice_2 = [get_request (datastore_url ws_a);
                  get_request (coveragestore_url ws_a)].
Proof. repeat split. Qed.



Lemma get_xml_served_from_cache_witness :
  snd (get_xml workspaces_url warmed) = warmed /\
  fst (get_xml workspaces_url warmed) =
    match XML workspaces_xml with
    | Some dom => Return dom
    | None => Raise (PyException (non_xml_message workspaces_url workspaces_xml)
                                 (Some ExpatError))
    end.
Proof.
  apply (@get_xml_served_from_cache demo workspaces_url warmed 0 workspaces_xml).
  - reflexivity.
  - reflexivity.
Defined.

(** Six seconds later the entry of [warmed] is stale. *)
Definition later : World DemoNet :=
  mkWorld (catalog warmed) (mkDemoNet 6000000 site_twice 201) (sent warmed).

Lemma get_xml_fetches_when_stale_witness :
  sent (snd (get_xml workspaces_url later))
  = sent later ++ [get_request workspaces_url].
Proof.
  refine (proj1 (@get_xml_fetches_when_stale demo workspaces_url later _)).
  intros stamp raw_text H. vm_compute in H. injection H as <- _.
  vm_compute. discriminate.
Defined.

(** The world of [site_clash] once the workspaces are listed. *)
Definition clash_listed : World DemoNet := snd (get_workspaces clash_0).

Lemma get_store_unscoped_witness :
  fst (get_store "s" None clash_0) =
  match stores_found "s" [ws_a; ws_b] clash_listed with
  | [] => Raise (FailedRequestError ("No store found named: " +:+ "s"))
  | [s] => Return (Some s)
  | _ => Raise (AmbiguousRequestError
                  (Some ("Multiple stores found named: " +:+ "s")))
  end.
Proof.
  apply (proj1 (@get_store_unscoped demo "s" clash_0 clash_listed [ws_a; ws_b]
                  eq_refl)).
Defined.

End Examples.

(** * Further worked examples *)

Module Cases.
Import Demo Examples.

Lemma gs_base_url_strips_letters_witness :
  gs_base_url (mkCatalog ("http://gs" +:+ "/" +:+ "tester") ∅) = "http://gs" +:+ "/".
Proof.
  refine (proj1 (@gs_base_url_strips_letters "http://gs" "tester" ∅ _)).
  repeat (constructor; [now apply (bool_decide_unpack _) |]). constructor.
Defined.

Lemma Catalog_init_no_final_slash_witness :
  service_url (Catalog_init ("http://gs/rest" +:+ "/")) = "http://gs/rest".
Proof.
  refine (proj2 (proj2 (proj2 (Catalog_init_no_final_slash "")))
            "http://gs/rest" _ _); reflexivity.
Defined.

Lemma get_xml_repeated_witness :
  get_xml workspaces_url (snd (get_xml workspaces_url twice_0)) =
  (fst (get_xml workspaces_url twice_0), snd (get_xml workspaces_url twice_0)).
Proof.
  apply (@get_xml_repeated demo workspaces_url twice_0). reflexivity.
Defined.

Lemma get_store_agrees_with_get_stores_witness :
  snd (get_store "s" (Some (WorkspaceByHandle ws_a)) twice_0) = twice_2 /\
  match filter (fun s => store_name s = "s") [store_a] with
  | [] => exists detail,
      fst (get_store "s" (Some (WorkspaceByHandle ws_a)) twice_0)
      = Raise (FailedRequestError detail)
  | [s] => fst (get_store "s" (Some (WorkspaceByHandle ws_a)) twice_0)
           = Return (Some s)
  | _ => exists msg,
      fst (get_store "s" (Some (WorkspaceByHandle ws_a)) twice_0)
      = Raise (AmbiguousRequestError msg)
  end.
Proof.
  apply (@get_store_agrees_with_get_stores demo "s" (WorkspaceByHandle ws_a)
           twice_0 twice_2 [store_a]).
  reflexivity.
Defined.

(** The world of [site_clash] once the store [s] is looked up everywhere. *)
Definition clash_found : World DemoNet := snd (get_store "s" None clash_0).

Lemma lookups_return_requested_name_witness : store_name store_b = "s".
Proof.
  refine (proj1 (proj2 (@lookups_return_requested_name demo "s"))
            None clash_0 clash_found store_b _).
  reflexivity.
Defined.

Lemma create_pg_featurestore_refuses_witness :
  create_pg_featurestore "s" (Some (WorkspaceByHandle ws_a)) false
                         "localhost" (PortInt 5432) "db" "public"
                         (Some "postgres") "secret" twice_0
  = (Raise (ConflictingDataError
              (conflict_message "s" (target_workspace
                                       (Some (WorkspaceByHandle ws_a))))),
     twice_2).
Proof.
  refine (proj2 (@create_pg_featurestore_refuses demo "s"
                   (Some (WorkspaceByHandle ws_a)) false "localhost"
                   (PortInt 5432) "db" "public" (Some "postgres") "secret"
                   twice_0 twice_2 store_a) _ _).
  - intros [_ H]. discriminate H.
  - reflexivity.
Defined.



Lemma uploads_refuse_existing_name_witness :
  create_shp_featurestore "s" (DataPath "s.zip")
                          (Some (WorkspaceByHandle ws_a)) false None twice_0
  = (Raise (ConflictingDataError
              (conflict_message "s" (target_workspace
                                       (Some (WorkspaceByHandle ws_a))))),
     twice_2) /\
  create_coveragestore "s" (DataPath "s.zip")
                       (Some (WorkspaceByHandle ws_a)) false twice_0
  = (Raise (ConflictingDataError
              (conflict_message "s" (target_workspace
                                       (Some (WorkspaceByHandle ws_a))))),
     twice_2).
Proof.
  refine (proj1 (@uploads_refuse_existing_name demo "s" (DataPath "s.zip")
                   (Some (WorkspaceByHandle ws_a)) None twice_0 twice_2)
            (Some store_a) _).
  reflexivity.
Defined.

(** The upload of [roads.zip] into workspace [a]. *)
Definition put_roads : Request :=
  mkRequest (url (service_url (catalog accepting))
                 ["workspaces";
                  util_name_workspace
                    (target_workspace (Some (WorkspaceByHandle ws_a)));
                  "datastores"; "roads"; "file.shp"]
                 (charset_params None))
            PUT (Some (open_file "roads.zip")) zip_headers.

Lemma create_shp_featurestore_overwrite_witness :
  create_shp_featurestore "roads" (DataPath "roads.zip")
                          (Some (WorkspaceByHandle ws_a)) true None accepting
  = (if status (fst (http_request put_roads (net accepting))) =? 201
     then Return tt
     else Raise (UploadError
                   (content (fst (http_request put_roads (net accepting))))),
     after_mutation put_roads accepting).
Proof.
  apply (@create_shp_featurestore_overwrite demo "roads" (DataPath "roads.zip")
           (Some (WorkspaceByHandle ws_a)) None accepting "roads.zip").
  reflexivity.
Defined.

Lemma add_data_to_store_checks_workspace_witness :
  exists msg,
    add_data_to_store (StoreByHandle store_a) "roads" (DataPath "roads.zip")
                      (Some (WorkspaceByName "b")) false None accepting
    = (Raise (AssertionError msg), accepting).
Proof.
  refine (proj1 (@add_data_to_store_checks_workspace demo store_a "roads"
                   (DataPath "roads.zip") (Some (WorkspaceByName "b")) false
                   None accepting "roads.zip" _)
            (WorkspaceByName "b") _ _).
  - reflexivity.
  - reflexivity.
  - discriminate.
Defined.

(** A server that has the style [line]. *)
Definition site_styles : list (string * Response) :=
  [ page "http://gs/rest/styles/line.xml" "<style><name>line</name></style>" ].

Definition styles_0 : World DemoNet := start 0 site_styles 200.
Definition styles_1 : World DemoNet := snd (get_style "line" None styles_0).

Lemma create_style_requests_witness :
  create_style "line" "<sld/>" false styles_0
  = (Raise (ConflictingDataError ("There is already a style named " +:+ "line")),
     styles_1).
Proof.
  apply (@create_style_requests demo "line" "<sld/>" false styles_0 styles_1
           (Some (mkStyle "line" None))).
  reflexivity.
Defined.

(** The world of [site_twice] once the workspaces are listed. *)
Definition twice_listed : World DemoNet := snd (get_workspace "zz" twice_0).

Lemma set_default_workspace_cases_witness :
  set_default_workspace "zz" twice_0 = (Return tt, twice_listed).
Proof.
  apply (@set_default_workspace_cases demo "zz" twice_0 twice_listed None).
  reflexivity.
Defined.

(** A second server, whose parser also knows a listing of layer groups. *)
Definition layergroups_xml : string :=
  "<layerGroups><layerGroup><name>base</name></layerGroup></layerGroups>".

Definition demo_XML2 (s : string) : option Element :=
  if bool_decide (s = layergroups_xml)
  then Some (Elem "layerGroups" None [entry "layerGroup" "base"])
  else demo_XML s.

Definition demo2 : Collaborators := {|
  Net := DemoNet;
  http_request := demo_http;
  datetime_now := clock;
  XML := demo_XML2;
  url := demo_url;
  datastore_url := demo_datastore_url;
  coveragestore_url := demo_coveragestore_url;
  str_workspace := workspace_name;
  store_get_resources := fun s => ret (demo_resources s);
  connection_parameters := fun _ => ret demo_connection;
  layer_href := fun name => demo_url base ["layers"; name +:+ ".xml"] [];
  workspace_message := fun w => "<workspace><name>" +:+ workspace_name w +:+ "</name></workspace>";
  prepare_upload_bundle := fun name _ => name +:+ ".zip";
  open_file := fun path => path;
  util_name_workspace := fun x => match x with
                                  | WorkspaceByName s => s
                                  | WorkspaceByHandle w => workspace_name w
                                  end;
  util_name_store := fun x => match x with
                              | StoreByName s => s
                              | StoreByHandle st => store_name st
                              end
|}.

Definition groups_0 : World DemoNet :=
  start 0 [page "http://gs/rest/layergroups.xml" layergroups_xml] 200.
Definition groups_1 : World DemoNet := snd (@get_layergroups demo2 groups_0).

Lemma create_layergroup_checks_listing_witness :
  @create_layergroup demo2 _ _ _ "base" ["roads"] ["line"] tt groups_0
  = (Raise (ConflictingDataError
              ("LayerGroup named " +:+ "base" +:+ " already exists!")),
     groups_1).
Proof.
  refine (proj1 (@create_layergroup_checks_listing demo2 _ _ _ "base"
                   ["roads"] ["line"] tt groups_0 groups_1
                   [mkLayerGroup (Some "base")] _) _).
  - reflexivity.
  - apply list_elem_of_here.
Defined.

(** The dialog as opened over empty settings, with the name [gs] entered
    while catalogues [gs] and [gs_2] exist. *)
Definition always_save (v : Dialog.QVariant) : bool := true.

Definition entered : Dialog.DefineCatalogDialog :=
  Dialog.mkDialog "gs" "localhost:8080/geoserver" "admin" "geoserver" "" false
                  None.

Definition accepted : Dialog.DefineCatalogDialog * gmap string Dialog.QVariant :=
  match Dialog.okPressed always_save 3 ["gs"; "gs_2"] entered ∅ with
  | Some r => r
  | None => (entered, ∅)
  end.

Lemma okPressed_accepts_witness :
  exists d' settings' c,
    Dialog.okPressed always_save 3 ["gs"; "gs_2"] entered ∅ = Some (d', settings') /\
    Dialog.ok d' = true /\
    Dialog.nameBox d' = Dialog.nameBox entered /\
    Dialog.urlBox d' = Dialog.urlBox entered /\
    Dialog.connection d' = Some c /\
    (Dialog.name c ∉ ["gs"; "gs_2"]) /\
    (Dialog.nameBox entered ∉ ["gs"; "gs_2"] ->
     Dialog.name c = Dialog.nameBox entered) /\
    Dialog.url c = Dialog.rest_url (Dialog.urlBox entered) /\
    Dialog.username c = Dialog.usernameBox entered /\
    Dialog.password c = Dialog.passwordBox entered /\
    Dialog.geonodeUrl c = Dialog.urlGeonodeBox entered.
Proof.
  apply (DialogFacts.okPressed_accepts always_save 3 ["gs"; "gs_2"] entered ∅).
  simpl. lia.
Defined.

Lemma okPressed_then_initGui_witness :
  Dialog.initGui (snd accepted) =
  Return (Dialog.mkDialog (Dialog.nameBox entered) (Dialog.urlBox entered)
                          "admin" "geoserver" (Dialog.urlGeonodeBox entered)
                          false None).
Proof.
  apply (DialogFacts.okPressed_then_initGui always_save 3 ["gs"; "gs_2"] entered
           ∅ (fst accepted) (snd accepted)).
  reflexivity.
Defined.

Definition accepted_connection : Dialog.Connection :=
  Dialog.mkConnection "http://localhost:8080/geoserver/rest" "admin" "geoserver"
                      "gs_3" "".

Lemma okPressed_saves_connection_witness :
  snd accepted !! (("/OpenGeo/GeoServer/" +:+ "gs_3") +:+ "/url")
  = Some (Dialog.QText "http://localhost:8080/geoserver/rest") /\
  snd accepted !! (("/OpenGeo/GeoServer/" +:+ "gs_3") +:+ "/username")
  = Some (Dialog.QText "admin") /\
  snd accepted !! (("/OpenGeo/GeoServer/" +:+ "gs_3") +:+ "/password")
  = Some (Dialog.QText "geoserver") /\
  snd accepted !! (("/OpenGeo/GeoServer/" +:+ "gs_3") +:+ "/geonode")
  = Some (Dialog.QText "").
Proof.
  exact (DialogFacts.okPressed_saves_connection always_save 3 ["gs"; "gs_2"]
           entered ∅ (fst accepted) (snd accepted) accepted_connection
           eq_refl eq_refl).
Defined.

End Cases.
